(** * Afternic auction analytics: a model of [afternic_analytics.py]

    The program is a linear pipeline over one pandas DataFrame:
    [load_data], [clean_data], [feature_engineering], [basic_summary] and
    [suggest_domains].  This file embeds the three stages that transform or
    select rows, and [main], which chains them, and states the properties of
    the specification about them.

    Modelling conventions.
    - A DataFrame is a list of column labels and a list of rows; a row maps
      labels to cells.  A label of the frame with no entry in a row reads as
      the missing value, as pandas fills it.
    - A cell is a missing number ([NaN], which stands for NaN and None), a
      missing timestamp ([NaT]), a text, a number or a timestamp; [isna]
      holds of the two missing values, the "undefined" marker of the
      specification.  Numbers are rationals; rounding and infinities of
      floats are outside the model.
    - pandas types columns; the model types cells.  An operation that pandas
      decides by the type of the column is given cell by cell as on a column
      of that type: a missing timestamp is compared, subtracted and read as
      a number as in a column of timestamps, a missing number as in a column
      of floats.  A frame without rows carries no type.
    - The parsers behind [pd.to_datetime] and [pd.to_numeric] belong to
      pandas and are parameters; they are applied cell by cell.
    - The sorting routine behind [sort_values] belongs to numpy and is an
      interface ([Sorter]) with the contract of every [kind]: the result is
      an ascending permutation of the input.
      Which of two rows of equal key comes first is the routine's.
    - Timestamps are naive: time zones and offsets are outside the model.
    - pandas subtracts numbers in the type of their columns, int64 (which
      wraps) or float64 (which rounds), and timestamps in int64 nanoseconds
      (beyond which it raises OverflowError).  The model subtracts exactly;
      a statement about a difference says where the two agree ([signed],
      [exact_difference], [timedelta_fits]).
    - Python exceptions are results [Raise e]. *)

From Stdlib Require Import ZArith QArith String Ascii.
From stdpp Require Import gmap strings list fin_maps sorting.

Local Open Scope string_scope.
Local Open Scope Z_scope.

(** ** Results and exceptions *)

Inductive exn :=
| KeyError (labels : list string)
| TypeError
| AttributeError.

Inductive result (A : Type) :=
| Ok (a : A)
| Raise (e : exn).
Arguments Ok {A} a.
Arguments Raise {A} e.

Global Instance result_ret : MRet result := λ A a, Ok a.

Global Instance result_bind : MBind result := λ A B k m,
  match m with
  | Ok a => k a
  | Raise e => Raise e
  end.

Fixpoint traverse {A B} (f : A → result B) (l : list A) : result (list B) :=
  match l with
  | [] => Ok []
  | a :: l' =>
      b ← f a;
      bs ← traverse f l';
      Ok (b :: bs)
  end.

(** ** Cells, rows and frames *)

(** A [pd.Timestamp]: a civil date and the nanoseconds elapsed in its day. *)
Record timestamp := Timestamp {
  year : Z;
  month : Z;
  day : Z;
  nanos : Z
}.

(** Days from 1970-01-01 to the civil date, proleptic Gregorian calendar. *)
Definition days_from_civil (y m d : Z) : Z :=
  let y' := if m <=? 2 then y - 1 else y in
  let era := y' / 400 in
  let yoe := y' - era * 400 in
  let mp := (m + 9) mod 12 in
  let doy := (153 * mp + 2) / 5 + d - 1 in
  let doe := yoe * 365 + yoe / 4 - yoe / 100 + doy in
  era * 146097 + doe - 719468.

Definition nanos_per_day : Z := 86400 * 1000000000.

(** The int64 value pandas stores for a timestamp. *)
Definition epoch_nanos (t : timestamp) : Z :=
  days_from_civil (year t) (month t) (day t) * nanos_per_day + nanos t.

(** [(e - s).days]: the days component of a Timedelta is the floor. *)
Definition timedelta_days (e s : timestamp) : Z :=
  (epoch_nanos e - epoch_nanos s) / nanos_per_day.

Inductive value :=
| NaN
| NaT
| Str (s : string)
| Num (x : Q)
| Date (t : timestamp).

Abbreviation row := (gmap string value).

Record table := DataFrame {
  columns : list string;
  rows : list row
}.

(** [pd.DataFrame()] *)
Definition empty_frame : table := DataFrame [] [].

Definition cell (r : row) (c : string) : value := default NaN (r !! c).

Definition isna (v : value) : bool :=
  match v with
  | NaN | NaT => true
  | _ => false
  end.

Definition notna (v : value) : bool := negb (isna v).

(** ** The pandas operations the program calls *)

(** [df.dropna(subset=...)]: a KeyError names the labels of [subset] that are
    not columns; otherwise the rows with no missing cell under [subset]. *)
Definition complete (subset : list string) (r : row) : bool :=
  forallb (λ c, notna (cell r c)) subset.

Definition dropna (subset : list string) (df : table) : result table :=
  match filter (λ c, c ∉ columns df) subset with
  | [] => Ok (DataFrame (columns df) (filter (λ r, complete subset r) (rows df)))
  | missing => Raise (KeyError missing)
  end.

(** [df[c] = series], the series given row by row. *)
Definition add_label (c : string) (cols : list string) : list string :=
  if decide (c ∈ cols) then cols else cols ++ [c].

Definition assign (c : string) (f : row → value) (df : table) : table :=
  DataFrame (add_label c (columns df)) (map (λ r, <[c := f r]> r) (rows df)).

Definition try_assign (c : string) (f : row → result value) (df : table)
  : result table :=
  rs ← traverse (λ r, v ← f r; Ok (<[c := v]> r)) (rows df);
  Ok (DataFrame (add_label c (columns df)) rs).

Section Pandas.

(** The text parsers of [pd.to_datetime] and [pd.to_numeric], and the reading
    of a number as an instant ([None]: out of bounds). *)
Variable parse_datetime : string → option timestamp.
Variable parse_numeric : string → option Q.
Variable datetime_of_number : Q → option timestamp.

(** [pd.to_datetime(_, errors='coerce')] on one cell. *)
Definition to_datetime (v : value) : value :=
  match v with
  | NaN | NaT => NaT
  | Str s => from_option Date NaT (parse_datetime s)
  | Num x => from_option Date NaT (datetime_of_number x)
  | Date t => Date t
  end.

(** [pd.to_numeric(_, errors='coerce')] on one cell; a column of
    timestamps is read as its int64 values, of which [NaT] is the least. *)
Definition to_numeric (v : value) : value :=
  match v with
  | NaN => NaN
  | Str s => from_option Num NaN (parse_numeric s)
  | Num x => Num x
  | Date t => Num (inject_Z (epoch_nanos t))
  | NaT => Num (inject_Z (- 2 ^ 63))
  end.

(** ** Step 2: [clean_data] *)

Definition date_cols : list string := ["startDate"; "endDate"; "registeredDate"].

Definition numeric_cols : list string :=
  ["price"; "startPrice"; "renewPrice"; "bidCount";
   "ahrefsDomainRating"; "alexaRanking"; "umbrellaRanking";
   "backlinksCount"; "cloudflareRanking"; "estibotValue";
   "extensionsTaken"; "keywordSearchCount"; "lastSoldPrice"].

(** [for col in cols: if col in df.columns: df[col] = f(df[col])] *)
Definition coerce_columns (f : value → value) (cols : list string) (df : table)
  : table :=
  foldl (λ df col,
           if decide (col ∈ columns df)
           then assign col (λ r, f (cell r col)) df
           else df)
        df cols.

Definition clean_data (df : table) : result table :=
  df ← dropna ["price"; "startPrice"; "registeredDate"] df;
  let df := coerce_columns to_datetime date_cols df in
  let df := coerce_columns to_numeric numeric_cols df in
  df ← dropna ["price"; "bidCount"] df;
  Ok df.

End Pandas.

(** ** Step 3: [feature_engineering] *)

(** [lambda x: len(x) if isinstance(x, str) else np.nan]; one character of
    the text per element of the string. *)
Definition domain_length (x : value) : value :=
  match x with
  | Str s => Num (inject_Z (Z.of_nat (String.length s)))
  | _ => NaN
  end.

(** [lambda x: current_year - x.year if pd.notnull(x) else np.nan]; a text
    or a number has no attribute [year]. *)
Definition domain_age (current_year : Z) (x : value) : result value :=
  match x with
  | NaN | NaT => Ok NaN
  | Date t => Ok (Num (inject_Z (current_year - year t)))
  | Str _ | Num _ => Raise AttributeError
  end.

(** [df['price'] - df['startPrice']] on one row.  The difference of two
    numbers is the exact one (see [exact_difference] for where the int64 or
    float64 subtraction of the columns gives it).  A missing number gives
    a missing number, also beside a text: on columns of objects pandas
    subtracts where both values are present.  Text does not support [-].
    (Columns of timestamps under these labels are outside the model: cells
    have no Timedelta.) *)
Definition price_diff (x y : value) : result value :=
  match x, y with
  | Num a, Num b => Ok (Num (a - b))
  | NaN, (NaN | Num _ | Str _) | (Num _ | Str _), NaN => Ok NaN
  | _, _ => Raise TypeError
  end.

(** The element of [df['endDate'] - df['startDate']] on one row: a time
    difference between timestamps (a missing one when a timestamp is
    missing), a float between numbers.  The difference is the exact number
    of nanoseconds; pandas holds it in an int64 (see [timedelta_fits]). *)
Inductive timedelta :=
| Timedelta (ns : Z)
| TimedeltaNaT
| Float.

Definition date_diff (e s : value) : result timedelta :=
  match e, s with
  | Date a, Date b => Ok (Timedelta (epoch_nanos a - epoch_nanos b))
  | NaT, (NaT | Date _) | Date _, NaT => Ok TimedeltaNaT
  | (NaN | Num _), (NaN | Num _) => Ok Float
  | _, _ => Raise TypeError
  end.

Definition is_float (d : timedelta) : bool :=
  match d with
  | Float => true
  | _ => false
  end.

(** [series.dt.days]: the accessor exists on time differences only.  pandas
    decides by the type of the series, the model by its elements; a series
    without elements is taken as one of time differences, as on the columns
    [to_datetime] has coerced. *)
Definition dt_days (ds : list timedelta) : result (list value) :=
  if existsb is_float ds then Raise AttributeError
  else Ok (map (λ d, match d with
                     | Timedelta ns => Num (inject_Z (ns / nanos_per_day))
                     | _ => NaN
                     end) ds).

(** [df[c] = series], the series given as a list aligned with the rows. *)
Definition assign_series (c : string) (vs : list value) (df : table) : table :=
  DataFrame (add_label c (columns df))
            (zip_with (λ r v, <[c := v]> r) (rows df) vs).

Definition feature_engineering (current_year : Z) (df : table) : result table :=
  df ← (if decide ("url" ∈ columns df)
        then Ok (assign "domainLength" (λ r, domain_length (cell r "url")) df)
        else Ok df);
  df ← (if decide ("registeredDate" ∈ columns df)
        then try_assign "domainAge"
               (λ r, domain_age current_year (cell r "registeredDate")) df
        else Ok df);
  df ← (if decide ("price" ∈ columns df ∧ "startPrice" ∈ columns df)
        then try_assign "priceDiff"
               (λ r, price_diff (cell r "price") (cell r "startPrice")) df
        else Ok df);
  df ← (if decide ("startDate" ∈ columns df ∧ "endDate" ∈ columns df)
        then ds ← traverse
                     (λ r, date_diff (cell r "endDate") (cell r "startDate"))
                     (rows df);
             vs ← dt_days ds;
             Ok (assign_series "auctionDurationDays" vs df)
        else Ok df);
  Ok df.

(** ** Step 5: [suggest_domains] *)

Definition Qltb (x y : Q) : bool :=
  match (x ?= y)%Q with
  | Lt => true
  | _ => false
  end.

(** [series < threshold] and [series > threshold] on one cell: false on the
    missing number, TypeError on text and on timestamps. *)
Definition lt_cell (v : value) (threshold : Q) : result bool :=
  match v with
  | NaN => Ok false
  | Num x => Ok (Qltb x threshold)
  | Str _ | Date _ | NaT => Raise TypeError
  end.

Definition gt_cell (v : value) (threshold : Q) : result bool :=
  match v with
  | NaN => Ok false
  | Num x => Ok (Qltb threshold x)
  | Str _ | Date _ | NaT => Raise TypeError
  end.

(** [df[mask]]: the rows whose mask is true, in the order of the frame. *)
Fixpoint select (mask : list bool) (rs : list row) : list row :=
  match mask, rs with
  | b :: mask', r :: rs' => if b then r :: select mask' rs' else select mask' rs'
  | _, _ => []
  end.

(** The sorting routine numpy runs for a [kind]: ascending in the key. *)
Class Sorter := {
  np_sort : ∀ A : Type, (A → Q) → list A → list A;
  np_sort_perm : ∀ A (key : A → Q) l, np_sort A key l ≡ₚ l;
  np_sort_sorted : ∀ A (key : A → Q) l,
    Sorted (λ a b, (key a <= key b)%Q) (np_sort A key l)
}.

Section Suggest.

Context `{Sorter}.

(** The key [sort_values] orders by; it compares numbers, and places the
    missing values last.  (The orders of text and of timestamps are not
    modelled: TypeError, as for text mixed with numbers.) *)
Definition sort_key (by_ : string) (r : row) : result (option Q * row) :=
  match cell r by_ with
  | Num x => Ok (Some x, r)
  | NaN | NaT => Ok (None, r)
  | Str _ | Date _ => Raise TypeError
  end.

Definition keyed (kr : option Q * row) : option (Q * row) :=
  x ← kr.1; Some (x, kr.2).

(** [sort_values(by=by_, ascending=False)] with the default [kind] and
    [na_position]: pandas reverses the keyed rows, sorts them ascending,
    reverses the outcome, and appends the rows with a missing key. *)
Definition sort_values_desc (by_ : string) (df : table) : result table :=
  krs ← traverse (sort_key by_) (rows df);
  let present := omap keyed krs in
  let absent := filter (λ kr, kr.1 = None) krs in
  Ok (DataFrame (columns df)
        (map snd (reverse (np_sort _ fst (reverse present))) ++ map snd absent)).

Fixpoint first_missing (cols : list string) (df : table) : option string :=
  match cols with
  | [] => None
  | col :: cols' =>
      if decide (col ∈ columns df) then first_missing cols' df else Some col
  end.

Definition not_found (col : string) : string :=
  "Column " +:+ (col +:+ " not found in DataFrame.").

(** What a call gives back: the lines printed and the value returned. *)
Record outcome := Outcome {
  printed : list string;
  returned : result table
}.

(** The comparison [(df['price'] < p) & (df['ahrefsDomainRating'] > q)]. *)
Definition suggest_mask (df : table) (price_threshold rating_threshold : Q)
  : result (list bool) :=
  cheap ← traverse (λ r, lt_cell (cell r "price") price_threshold) (rows df);
  rated ← traverse (λ r, gt_cell (cell r "ahrefsDomainRating") rating_threshold)
                   (rows df);
  Ok (zip_with andb cheap rated).

Definition suggest_domains (df : table) (price_threshold rating_threshold : Q)
  : outcome :=
  match first_missing ["price"; "ahrefsDomainRating"] df with
  | Some col => Outcome [not_found col] (Ok empty_frame)
  | None =>
      Outcome []
        (mask ← suggest_mask df price_threshold rating_threshold;
         let filtered_df := DataFrame (columns df) (select mask (rows df)) in
         sort_values_desc "ahrefsDomainRating" filtered_df)
  end.

(** The signature's defaults: [price_threshold=500, rating_threshold=10]. *)
Definition call_suggest_domains (df : table)
    (price_threshold rating_threshold : option Q) : outcome :=
  suggest_domains df (default 500%Q price_threshold)
                     (default 10%Q rating_threshold).

(** The call in [main]. *)
Definition main_suggested (df : table) : outcome :=
  call_suggest_domains df (Some 500%Q) (Some 20%Q).

End Suggest.

(** ** Frames as objects

    [suggest_domains] receives a reference to a frame.  Indexing by a mask
    and [copy] each build a new object; [sort_values(inplace=True)] updates
    the object it is called on.  A program is stuck ([None]) on a reference
    that names no object. *)
Module Store.

Definition loc := nat.

Record world := World {
  heap : list table;
  stdout : list string
}.

Definition prog (A : Type) : Type := world → option (result A * world).

Definition ret {A} (a : A) : prog A := λ w, Some (Ok a, w).

Definition raise {A} (e : exn) : prog A := λ w, Some (Raise e, w).

Definition and_then {A B} (m : prog A) (k : A → prog B) : prog B := λ w,
  match m w with
  | Some (Ok a, w') => k a w'
  | Some (Raise e, w') => Some (Raise e, w')
  | None => None
  end.

Notation "x <- m ;; k" := (and_then m (λ x, k))
  (at level 100, m at next level, right associativity).

Definition lift {A} (r : result A) : prog A := λ w, Some (r, w).

Definition new_frame (T : table) : prog loc := λ w,
  Some (Ok (length (heap w)), World (heap w ++ [T]) (stdout w)).

Definition read (l : loc) : prog table := λ w,
  T ← heap w !! l; Some (Ok T, w).

Definition write (l : loc) (T : table) : prog unit := λ w,
  _ ← heap w !! l; Some (Ok (), World (<[l := T]> (heap w)) (stdout w)).

Definition print (line : string) : prog unit := λ w,
  Some (Ok (), World (heap w) (stdout w ++ [line])).

Section Suggest.

Context `{Sorter}.

(** [df.sort_values(..., inplace=True)] *)
Definition sort_values_inplace (by_ : string) (l : loc) : prog unit :=
  T <- read l ;;
  T' <- lift (sort_values_desc by_ T) ;;
  write l T'.

Definition suggest_domains (df : loc) (price_threshold rating_threshold : Q)
  : prog loc :=
  T <- read df ;;
  match first_missing ["price"; "ahrefsDomainRating"] T with
  | Some col =>
      _ <- print (not_found col) ;;
      new_frame empty_frame
  | None =>
      mask <- lift (suggest_mask T price_threshold rating_threshold) ;;
      selected <- new_frame (DataFrame (columns T) (select mask (rows T))) ;;
      S <- read selected ;;
      filtered_df <- new_frame S ;;
      _ <- sort_values_inplace "ahrefsDomainRating" filtered_df ;;
      ret filtered_df
  end.

End Suggest.

End Store.

(** ** Main execution *)

(** [df[labels]] with a list of labels: a KeyError names the labels that are
    not columns; otherwise the frame of those columns. *)
Definition select_columns (labels : list string) (df : table) : result table :=
  match filter (λ c, c ∉ columns df) labels with
  | [] => Ok (DataFrame labels
                (map (λ r : row, filter (λ kv, kv.1 ∈ labels) r) (rows df)))
  | missing => Raise (KeyError missing)
  end.

(** [df.head(n)] *)
Definition df_head (n : nat) (df : table) : table :=
  DataFrame (columns df) (take n (rows df)).

(** What a run writes to the standard output: a line of text, or a frame
    as pandas renders it. *)
Inductive event :=
| Printed (line : string)
| Shown (df : table).

(** A computation that prints, and returns or raises. *)
Record run (A : Type) := Run {
  output : list event;
  outcome_of : result A
}.
Arguments Run {A} output outcome_of.
Arguments output {A} r.
Arguments outcome_of {A} r.

Global Instance run_ret : MRet run := λ A a, Run [] (Ok a).

Global Instance run_bind : MBind run := λ A B k m,
  match outcome_of m with
  | Ok a => Run (output m ++ output (k a)) (outcome_of (k a))
  | Raise e => Run (output m) (Raise e)
  end.

Definition of_result {A} (r : result A) : run A := Run [] r.

Definition print_line (line : string) : run unit := Run [Printed line] (Ok ()).

Definition print_frame (df : table) : run unit := Run [Shown df] (Ok ()).

(** A call of [suggest_domains] inside a run. *)
Definition suggesting (o : outcome) : run table :=
  Run (map Printed (printed o)) (returned o).

Definition shown_columns : list string :=
  ["url"; "price"; "ahrefsDomainRating"; "domainLength"; "domainAge"].

Definition suggested_header : string :=
  String "010"%char "===== SUGGESTED DOMAINS (Heuristic Example) =====".

Section Main.

Context `{Sorter}.

Variable parse_datetime : string → option timestamp.
Variable parse_numeric : string → option Q.
Variable datetime_of_number : Q → option timestamp.

(** The year [datetime.now()] gives. *)
Variable current_year : Z.

(** [basic_summary]: what it prints, and whether it raises, is pandas',
    matplotlib's and seaborn's; it reads the frame and does not change it. *)
Variable basic_summary : table → run unit.

(** [main], from the frame [load_data] returns ([pd.read_csv] of the path;
    a failure there ends the run before anything below). *)
Definition main (loaded : table) : run unit :=
  df ← of_result (clean_data parse_datetime parse_numeric datetime_of_number loaded);
  df ← of_result (feature_engineering current_year df);
  _ ← basic_summary df;
  suggested ← suggesting (main_suggested df);
  _ ← print_line suggested_header;
  shown ← of_result (select_columns shown_columns suggested);
  print_frame (df_head 20 shown).

End Main.

(** ** The stages, row by row

    What each stage does to one row and to the labels of a frame; the
    properties below are stated and proved through these. *)

Definition coerce_row (f : value → value) (cols : list string) (r : row) : row :=
  foldl (λ r c, <[c := f (cell r c)]> r) r cols.

Definition required : list string := ["price"; "startPrice"; "registeredDate"].

Definition required_numeric : list string := ["price"; "bidCount"].

Section CleanRows.

Variable parse_datetime : string → option timestamp.
Variable parse_numeric : string → option Q.
Variable datetime_of_number : Q → option timestamp.

(** What the two loops of [clean_data] do to one row of a frame with
    columns [cols]. *)
Definition clean_row (cols : list string) (r : row) : row :=
  coerce_row (to_numeric parse_numeric) (filter (λ c, c ∈ cols) numeric_cols)
    (coerce_row (to_datetime parse_datetime datetime_of_number)
       (filter (λ c, c ∈ cols) date_cols) r).

(** The coercion a label undergoes. *)
Definition coercion (cols : list string) (c : string) (v : value) : value :=
  if decide (c ∈ numeric_cols ∧ c ∈ cols) then to_numeric parse_numeric v
  else if decide (c ∈ date_cols ∧ c ∈ cols)
       then to_datetime parse_datetime datetime_of_number v
       else v.

(** The rows of [clean_data], in one expression. *)
Definition cleaned_rows (df : table) : list row :=
  filter (λ r, complete required_numeric r)
    (map (clean_row (columns df))
       (filter (λ r, complete required r) (rows df))).

End CleanRows.

(** One step of [feature_engineering] on a frame and on a row: when the
    source columns are there ([P]), the label [c] is given the series [g]. *)
Definition label (P : Prop) `{!Decision P} (c : string) (cols : list string)
  : list string :=
  if decide P then add_label c cols else cols.

Definition derive (P : Prop) `{!Decision P} (c : string) (g : row → value)
    (r : row) : row :=
  if decide P then <[c := g r]> r else r.

(** The cells the typed stages of the Feature Deriver compute. *)
Definition age_of (current_year : Z) (x : value) : value :=
  match x with
  | Date t => Num (inject_Z (current_year - year t))
  | _ => NaN
  end.

Definition difference_of (x y : value) : value :=
  match x, y with
  | Num a, Num b => Num (a - b)
  | _, _ => NaN
  end.

Definition days_between (e s : value) : value :=
  match e, s with
  | Date a, Date b => Num (inject_Z (timedelta_days a b))
  | _, _ => NaN
  end.

Definition date_or_na (v : value) : bool :=
  match v with
  | NaT | Date _ => true
  | _ => false
  end.

Definition num_or_na (v : value) : bool :=
  match v with
  | NaN | Num _ => true
  | _ => false
  end.

Definition span (e s : value) : timedelta :=
  match e, s with
  | Date a, Date b => Timedelta (epoch_nanos a - epoch_nanos b)
  | _, _ => TimedeltaNaT
  end.

(** The Feature Deriver on a typed row of a frame with columns [cols]. *)
Definition derived_row (current_year : Z) (cols : list string) (r : row)
  : row :=
  derive ("startDate" ∈ cols ∧ "endDate" ∈ cols) "auctionDurationDays"
    (λ r, days_between (cell r "endDate") (cell r "startDate"))
    (derive ("price" ∈ cols ∧ "startPrice" ∈ cols) "priceDiff"
       (λ r, difference_of (cell r "price") (cell r "startPrice"))
       (derive ("registeredDate" ∈ cols) "domainAge"
          (λ r, age_of current_year (cell r "registeredDate"))
          (derive ("url" ∈ cols) "domainLength"
             (λ r, domain_length (cell r "url")) r))).

Definition derived_columns (cols : list string) : list string :=
  label ("startDate" ∈ cols ∧ "endDate" ∈ cols) "auctionDurationDays"
    (label ("price" ∈ cols ∧ "startPrice" ∈ cols) "priceDiff"
       (label ("registeredDate" ∈ cols) "domainAge"
          (label ("url" ∈ cols) "domainLength" cols))).

(** The frames the Cleaner hands over: timestamps or [NaT] under the date
    sources, numbers or [NaN] under the numeric ones. *)
Definition typed_row (cols : list string) (r : row) : Prop :=
  ("registeredDate" ∈ cols → date_or_na (cell r "registeredDate")) ∧
  ("price" ∈ cols ∧ "startPrice" ∈ cols →
     num_or_na (cell r "price") ∧ num_or_na (cell r "startPrice")) ∧
  ("startDate" ∈ cols ∧ "endDate" ∈ cols →
     date_or_na (cell r "endDate") ∧ date_or_na (cell r "startDate")).

Definition typed (df : table) : Prop :=
  Forall (typed_row (columns df)) (rows df).

Global Instance typed_dec df : Decision (typed df).
Proof. unfold typed, typed_row. apply _. Defined.





(** The difference of two timestamps fits the int64 nanoseconds of a
    Timedelta. *)
Definition timedelta_fits (e s : value) : Prop :=
  match e, s with
  | Date a, Date b => Z.abs (epoch_nanos a - epoch_nanos b) < 2 ^ 63
  | _, _ => True
  end.

Global Instance timedelta_fits_dec e s : Decision (timedelta_fits e s).
Proof. destruct e, s; simpl; apply _. Defined.

(** The labels the Feature Deriver assigns on a frame with columns [cols]. *)
Definition derived (cols : list string) (c : string) : Prop :=
  (c = "domainLength" ∧ "url" ∈ cols) ∨
  (c = "domainAge" ∧ "registeredDate" ∈ cols) ∨
  (c = "priceDiff" ∧ "price" ∈ cols ∧ "startPrice" ∈ cols) ∨
  (c = "auctionDurationDays" ∧ "startDate" ∈ cols ∧ "endDate" ∈ cols).

(** The selection predicate on one row. *)
Definition selected (p q : Q) (r : row) : bool :=
  match cell r "price", cell r "ahrefsDomainRating" with
  | Num x, Num y => Qltb x p && Qltb q y
  | _, _ => false
  end.

(** The order of a frame sorted by a label, descending: each row holds a
    number under the label, no smaller than in the rows after it. *)
Definition descending (by_ : string) : relation row := λ a b,
  ∃ x y, cell a by_ = Num x ∧ cell b by_ = Num y ∧ (y <= x)%Q.

Definition number_under (by_ : string) (r : row) : Q :=
  match cell r by_ with
  | Num x => x
  | _ => 0%Q
  end.

Section SortedRows.

Context `{Sorter}.

(** The rows [sort_values] returns for rows that all hold a number under
    the label. *)
Definition sorted_desc (by_ : string) (rs : list row) : list row :=
  map snd (reverse (np_sort _ fst
                      (reverse (map (λ r, (number_under by_ r, r)) rs)))).

End SortedRows.

(** ** Reference parsers

    Instances of the parameters of [clean_data] for the examples: unsigned
    decimal numbers, dates written [YYYY-MM-DD], and instants counted in
    nanoseconds from 1970-01-01 within the int64 range. *)
Module Reference.

Definition digit (a : ascii) : option Z :=
  let n := Z.of_nat (nat_of_ascii a) - 48 in
  if (0 <=? n) && (n <=? 9) then Some n else None.

Fixpoint digits (acc : Z) (s : string) : option Z :=
  match s with
  | EmptyString => Some acc
  | String a s' => d ← digit a; digits (10 * acc + d) s'
  end.

Definition numeric (s : string) : option Q :=
  match s with
  | EmptyString => None
  | _ => inject_Z <$> digits 0 s
  end.

Definition days_in_month (y m : Z) : Z :=
  if m =? 2 then
    if ((y mod 4 =? 0) && negb (y mod 100 =? 0)) || (y mod 400 =? 0)
    then 29 else 28
  else if (m =? 4) || (m =? 6) || (m =? 9) || (m =? 11) then 30 else 31.

Definition datetime (s : string) : option timestamp :=
  if decide (String.length s = 10%nat ∧
             substring 4 1 s = "-" ∧ substring 7 1 s = "-") then
    y ← digits 0 (substring 0 4 s);
    m ← digits 0 (substring 5 2 s);
    d ← digits 0 (substring 8 2 s);
    if (1 <=? m) && (m <=? 12) && (1 <=? d) && (d <=? days_in_month y m)
    then Some (Timestamp y m d 0) else None
  else None.

(** The civil date of a day count, inverse of [days_from_civil]. *)
Definition civil_from_days (z : Z) : Z * Z * Z :=
  let z := z + 719468 in
  let era := z / 146097 in
  let doe := z - era * 146097 in
  let yoe := (doe - doe / 1460 + doe / 36524 - doe / 146096) / 365 in
  let doy := doe - (365 * yoe + yoe / 4 - yoe / 100) in
  let mp := (5 * doy + 2) / 153 in
  let d := doy - (153 * mp + 2) / 5 + 1 in
  let m := if mp <? 10 then mp + 3 else mp - 9 in
  ((if m <=? 2 then yoe + era * 400 + 1 else yoe + era * 400), m, d).

Definition instant (x : Q) : option timestamp :=
  let ns := Qnum x / Zpos (Qden x) in
  if (- 2 ^ 63 <? ns) && (ns <? 2 ^ 63) then
    let '(y, m, d) := civil_from_days (ns / nanos_per_day) in
    Some (Timestamp y m d (ns mod nanos_per_day))
  else None.

End Reference.

(** ** Reference sorting routines *)

Definition key_le {A} (key : A → Q) : relation A := λ a b, (key a <= key b)%Q.

Global Instance key_le_dec {A} (key : A → Q) a b : Decision (key_le key a b).
Proof. unfold key_le, Qle. apply _. Defined.

(** A merge sort, as [kind='stable'] runs. *)
Definition stable_sort (A : Type) (key : A → Q) (l : list A) : list A :=
  merge_sort (key_le key) l.

(** ** Frames of listings, for the examples *)

Module Examples.

Definition listing_columns : list string :=
  ["url"; "price"; "startPrice"; "ahrefsDomainRating"; "registeredDate";
   "bidCount"].

Definition listing (url price startPrice rating registered bids : value) : row :=
  list_to_map
    [("url", url); ("price", price); ("startPrice", startPrice);
     ("ahrefsDomainRating", rating); ("registeredDate", registered);
     ("bidCount", bids)].

(** Two listings as [read_csv] loads them: one with a start price that is
    no number, one with a registration date that is no date. *)
Definition unparsed : table :=
  DataFrame listing_columns
    [listing (Str "ab.com") (Num 100) (Str "$80") (Num 30)
             (Str "2015-01-01") (Num 2);
     listing (Str "cd.com") (Num 600) (Str "500") (Num 50)
             (Str "unknown") (Num 5)].

Definition unparsed_cleaned : table :=
  DataFrame listing_columns
    [listing (Str "ab.com") (Num 100) NaN (Num 30)
             (Date (Timestamp 2015 1 1 0)) (Num 2);
     listing (Str "cd.com") (Num 600) (Num 500) (Num 50)
             NaT (Num 5)].

(** Two listings of equal rating. *)
Definition ties : table :=
  DataFrame listing_columns
    [listing (Str "ab.com") (Num 100) (Num 80) (Num 30)
             (Date (Timestamp 2015 1 1 0)) (Num 2);
     listing (Str "cd.com") (Num 200) (Num 150) (Num 30)
             (Date (Timestamp 2010 1 1 0)) (Num 5)].

(** A frame whose registration dates were not coerced. *)
Definition uncoerced : table :=
  DataFrame ["registeredDate"]
    [ {[ "registeredDate" := NaN ]};
      {[ "registeredDate" := Str "2015-01-01" ]} ].

(** The scenario of the specification. *)
Definition rowA : row :=
  listing (Str "ab.com") (Num 100) (Num 80) (Num 30)
          (Date (Timestamp 2015 1 1 0)) (Num 2).

Definition rowB : row :=
  listing (Str "cd.com") (Num 600) (Num 500) (Num 50)
          (Date (Timestamp 2010 1 1 0)) (Num 5).

Definition scenario (rowC : row) : table :=
  DataFrame listing_columns [rowA; rowB; rowC].

Definition scenario_cleaned : table :=
  DataFrame listing_columns [rowA; rowB].

Definition engineered_columns : list string :=
  (listing_columns ++ ["domainLength"; "domainAge"; "priceDiff"])%list.

Definition engineered (r : row) (length_ age diff : Q) : row :=
  <["priceDiff" := Num diff]>
    (<["domainAge" := Num age]> (<["domainLength" := Num length_]> r)).

Definition scenario_engineered (current_year : Z) : table :=
  DataFrame engineered_columns
    [engineered rowA 6 (inject_Z (current_year - 2015)) 20;
     engineered rowB 6 (inject_Z (current_year - 2010)) 100].

Definition rowC : row :=
  list_to_map
    [("url", Str "ef.com"); ("startPrice", Num 10);
     ("ahrefsDomainRating", Num 40);
     ("registeredDate", Date (Timestamp 2020 1 1 0)); ("bidCount", Num 1)].

End Examples.

(** * Properties *)

(** ** Cells and rows *)

(** Case analysis on every decision of the goal. *)
Ltac decide_all :=
  repeat match goal with
         | |- context [decide ?P] => destruct (decide P)
         end;
  repeat match goal with
         | H : context [_ ∈ filter _ _] |- _ => rewrite list_elem_of_filter in H
         end;
  try done; try tauto.

Lemma cell_insert (r : row) c c' v :
  cell (<[c := v]> r) c' = if decide (c = c') then v else cell r c'.
Proof.
  unfold cell. rewrite lookup_insert. by case_decide.
Qed.

Lemma complete_spec subset r :
  complete subset r ↔ ∀ c, c ∈ subset → notna (cell r c).
Proof.
  unfold complete. rewrite Is_true_true, forallb_forall.
  setoid_rewrite Is_true_true. setoid_rewrite <- list_elem_of_In. done.
Qed.

Lemma add_label_present c cols : c ∈ cols → add_label c cols = cols.
Proof. intros. unfold add_label. by rewrite decide_True. Qed.

Lemma elem_of_add_label c c' cols :
  c' ∈ add_label c cols ↔ c' = c ∨ c' ∈ cols.
Proof.
  unfold add_label. case_decide; [ | rewrite elem_of_app, list_elem_of_singleton ];
    naive_solver.
Qed.

(** ** Results *)

Lemma bind_Ok {A B} (a : A) (k : A → result B) : (Ok a ≫= k) = k a.
Proof. done. Qed.

Lemma bind_Ok_inv {A B} (m : result A) (k : A → result B) b :
  (m ≫= k) = Ok b → ∃ a, m = Ok a ∧ k a = Ok b.
Proof. destruct m; [ eauto | done ]. Qed.

(** ** [dropna] *)

Lemma filter_absent_nil (subset cols : list string) :
  filter (λ c, c ∉ cols) subset = [] ↔ Forall (λ c, c ∈ cols) subset.
Proof.
  induction subset as [ | c subset IH ]; [ done | ].
  rewrite filter_cons, Forall_cons. case_decide as Hc.
  - split; [ done | intros [? _]; done ].
  - rewrite IH. split; [ | naive_solver ].
    intros ?. split; [ | done ]. by destruct (decide (c ∈ cols)).
Qed.

Lemma dropna_Ok subset df :
  Forall (λ c, c ∈ columns df) subset →
  dropna subset df
  = Ok (DataFrame (columns df) (filter (λ r, complete subset r) (rows df))).
Proof.
  intros Hs. unfold dropna. apply filter_absent_nil in Hs. by rewrite Hs.
Qed.

Lemma dropna_inv subset df df' :
  dropna subset df = Ok df' →
  Forall (λ c, c ∈ columns df) subset ∧
  df' = DataFrame (columns df) (filter (λ r, complete subset r) (rows df)).
Proof.
  unfold dropna. intros Hd.
  destruct (filter (λ c, c ∉ columns df) subset) eqn:Hf; [ | done ].
  apply filter_absent_nil in Hf. by simplify_eq.
Qed.

(** ** Coercion of columns, row by row *)

Lemma coerce_columns_spec f cols df :
  coerce_columns f cols df
  = DataFrame (columns df)
      (map (coerce_row f (filter (λ c, c ∈ columns df) cols)) (rows df)).
Proof.
  unfold coerce_columns. destruct df as [cs rs]. cbn [columns rows]. revert rs.
  induction cols as [ | c cols IH ]; intros rs.
  - cbn [foldl]. by rewrite filter_nil, map_id.
  - cbn [foldl columns]. rewrite filter_cons.
    destruct (decide (c ∈ cs)) as [ Hc | Hc ].
    + unfold assign. cbn [columns rows].
      rewrite add_label_present by done.
      rewrite IH, map_map. done.
    + apply IH.
Qed.

Lemma lookup_coerce_row f cols (r : row) c :
  (∀ v, f (f v) = f v) →
  coerce_row f cols r !! c
  = if decide (c ∈ cols) then Some (f (cell r c)) else r !! c.
Proof.
  intros Hf. revert r. induction cols as [ | a cols IH ]; intros r.
  - cbn [coerce_row foldl]. by rewrite decide_False by apply not_elem_of_nil.
  - unfold coerce_row in *. cbn [foldl]. rewrite IH. rewrite cell_insert.
    destruct (decide (a = c)) as [ -> | Hne ].
    + rewrite (decide_True (P := c ∈ c :: cols)) by apply list_elem_of_here.
      rewrite Hf, lookup_insert_eq. by case_decide.
    + rewrite lookup_insert_ne by done.
      destruct (decide (c ∈ cols)) as [ Hin | Hin ].
      * rewrite decide_True by (by apply list_elem_of_further). done.
      * rewrite decide_False; [ done | ].
        rewrite elem_of_cons. naive_solver.
Qed.

Lemma cell_coerce_row f cols (r : row) c :
  (∀ v, f (f v) = f v) →
  cell (coerce_row f cols r) c
  = if decide (c ∈ cols) then f (cell r c) else cell r c.
Proof.
  intros Hf. unfold cell at 1. rewrite lookup_coerce_row by done.
  by case_decide.
Qed.

(** ** Lists *)

Lemma filter_ext_in {A} (P Q : A → Prop)
    `{!∀ x, Decision (P x), !∀ x, Decision (Q x)} (l : list A) :
  (∀ x, x ∈ l → P x ↔ Q x) → filter P l = filter Q l.
Proof.
  induction l as [ | a l IH ]; intros HPQ; [ done | ].
  rewrite !filter_cons.
  rewrite IH by (intros; apply HPQ; by apply list_elem_of_further).
  pose proof (HPQ a (list_elem_of_here _ _)). decide_all.
Qed.

Lemma filter_all {A} (P : A → Prop) `{!∀ x, Decision (P x)} (l : list A) :
  (∀ x, x ∈ l → P x) → filter P l = l.
Proof.
  induction l as [ | a l IH ]; intros HP; [ done | ].
  rewrite filter_cons_True by apply HP, list_elem_of_here.
  rewrite IH; [ done | ]. intros. by apply HP, list_elem_of_further.
Qed.

Lemma filter_map {A B} (f : A → B) (P : B → Prop) `{!∀ y, Decision (P y)}
    (l : list A) :
  filter P (map f l) = map f (filter (λ x, P (f x)) l).
Proof.
  induction l as [ | a l IH ]; [ done | ]. simpl.
  rewrite !filter_cons, IH. by case_decide.
Qed.

Lemma map_fixed {A} (f : A → A) (l : list A) :
  (∀ x, x ∈ l → f x = x) → map f l = l.
Proof.
  induction l as [ | a l IH ]; intros Hf; [ done | ]. simpl.
  rewrite Hf by apply list_elem_of_here.
  rewrite IH; [ done | ]. intros. by apply Hf, list_elem_of_further.
Qed.

Lemma elem_of_list_map {A B} (f : A → B) (l : list A) y :
  y ∈ map f l ↔ ∃ x, y = f x ∧ x ∈ l.
Proof.
  rewrite list_elem_of_In, in_map_iff. setoid_rewrite list_elem_of_In.
  naive_solver.
Qed.

Section CleanFacts.

Variable parse_datetime : string → option timestamp.
Variable parse_numeric : string → option Q.
Variable datetime_of_number : Q → option timestamp.

Local Abbreviation to_datetime := (to_datetime parse_datetime datetime_of_number).
Local Abbreviation to_numeric := (to_numeric parse_numeric).
Local Abbreviation clean_data :=
  (clean_data parse_datetime parse_numeric datetime_of_number).
Local Abbreviation clean_row :=
  (clean_row parse_datetime parse_numeric datetime_of_number).
Local Abbreviation coercion :=
  (coercion parse_datetime parse_numeric datetime_of_number).
Local Abbreviation cleaned_rows :=
  (cleaned_rows parse_datetime parse_numeric datetime_of_number).

Lemma to_datetime_idemp v : to_datetime (to_datetime v) = to_datetime v.
Proof.
  destruct v as [ | | s | x | t ]; simpl; try done.
  - by destruct (parse_datetime s).
  - by destruct (datetime_of_number x).
Qed.

Lemma to_numeric_idemp v : to_numeric (to_numeric v) = to_numeric v.
Proof.
  destruct v as [ | | s | x | t ]; simpl; try done.
  by destruct (parse_numeric s).
Qed.

Lemma date_numeric_disjoint c : c ∈ date_cols → c ∈ numeric_cols → False.
Proof.
  unfold date_cols, numeric_cols. rewrite !elem_of_cons, !elem_of_nil.
  intros Hd Hn.
  destruct Hd as [ -> | [ -> | [ -> | [] ] ] ]; repeat (destruct Hn as [ Hn | Hn ]; [ done | ]); done.
Qed.

Lemma lookup_clean_row cols (r : row) c :
  clean_row cols r !! c
  = if decide ((c ∈ numeric_cols ∨ c ∈ date_cols) ∧ c ∈ cols)
    then Some (coercion cols c (cell r c)) else r !! c.
Proof.
  unfold clean_row, coercion.
  rewrite lookup_coerce_row by apply to_numeric_idemp.
  rewrite cell_coerce_row by apply to_datetime_idemp.
  rewrite lookup_coerce_row by apply to_datetime_idemp.
  destruct (decide (c ∈ numeric_cols)) as [ Hn | Hn ];
    destruct (decide (c ∈ date_cols)) as [ Hd | Hd ];
    destruct (decide (c ∈ cols)) as [ Hc | Hc ];
    try (exfalso; by eapply date_numeric_disjoint);
    decide_all.
Qed.

Lemma cell_clean_row cols (r : row) c :
  cell (clean_row cols r) c = coercion cols c (cell r c).
Proof.
  unfold cell at 1. rewrite lookup_clean_row.
  case_decide as Hc; [ done | ].
  unfold coercion. decide_all.
Qed.

Lemma coercion_idemp cols c v :
  coercion cols c (coercion cols c v) = coercion cols c v.
Proof.
  unfold coercion. repeat case_decide;
    auto using to_numeric_idemp, to_datetime_idemp.
Qed.

Lemma clean_row_idemp cols (r : row) :
  clean_row cols (clean_row cols r) = clean_row cols r.
Proof.
  apply map_eq. intros c. rewrite lookup_clean_row.
  case_decide as Hc; [ | done ].
  rewrite cell_clean_row, coercion_idemp.
  rewrite lookup_clean_row. by rewrite decide_True.
Qed.

Lemma clean_data_eq df :
  clean_data df
  = (df1 ← dropna required df;
     df2 ← dropna required_numeric
             (coerce_columns to_numeric numeric_cols
                (coerce_columns to_datetime date_cols df1));
     Ok df2).
Proof. reflexivity. Qed.

Lemma clean_data_inv df df' :
  clean_data df = Ok df' →
  Forall (λ c, c ∈ columns df) (required ++ required_numeric)%list ∧
  df' = DataFrame (columns df) (cleaned_rows df).
Proof.
  rewrite clean_data_eq.
  intros (df1 & H1 & (df2 & H2 & [= <-])%bind_Ok_inv)%bind_Ok_inv.
  apply dropna_inv in H1 as [Hreq ->].
  apply dropna_inv in H2 as [Hnum ->].
  rewrite !coerce_columns_spec in Hnum. rewrite !coerce_columns_spec.
  split; [ by apply Forall_app | ].
  cbn [columns rows]. unfold cleaned_rows, clean_row. by rewrite map_map.
Qed.

Lemma clean_data_Ok df :
  Forall (λ c, c ∈ columns df) (required ++ required_numeric)%list →
  clean_data df = Ok (DataFrame (columns df) (cleaned_rows df)).
Proof.
  intros [Hreq Hnum]%Forall_app. rewrite clean_data_eq.
  rewrite (dropna_Ok _ _ Hreq), bind_Ok.
  rewrite dropna_Ok by (by rewrite !coerce_columns_spec).
  rewrite bind_Ok, !coerce_columns_spec.
  cbn [columns rows]. unfold cleaned_rows, clean_row. by rewrite map_map.
Qed.

Lemma to_numeric_kind v : to_numeric v = NaN ∨ ∃ x, to_numeric v = Num x.
Proof.
  destruct v as [ | | s | x | t ]; simpl; eauto.
  destruct (parse_numeric s); simpl; eauto.
Qed.

Lemma to_datetime_kind v : to_datetime v = NaT ∨ ∃ t, to_datetime v = Date t.
Proof.
  destruct v as [ | | s | x | t ]; simpl; eauto.
  - destruct (parse_datetime s); simpl; eauto.
  - destruct (datetime_of_number x); simpl; eauto.
Qed.

Lemma coercion_numeric cols c v :
  c ∈ numeric_cols → c ∈ cols → coercion cols c v = to_numeric v.
Proof. intros. unfold coercion. by rewrite decide_True. Qed.

Lemma coercion_date cols c v :
  c ∈ date_cols → c ∈ cols → coercion cols c v = to_datetime v.
Proof.
  intros Hd Hc. unfold coercion.
  rewrite decide_False by (intros [? _]; by eapply date_numeric_disjoint).
  by rewrite decide_True.
Qed.

Lemma coercion_untouched cols c v :
  ¬ (c ∈ (date_cols ++ numeric_cols)%list ∧ c ∈ cols) → coercion cols c v = v.
Proof.
  rewrite elem_of_app. intros Hc. unfold coercion. decide_all.
Qed.

Lemma elem_of_cleaned_rows df r' :
  r' ∈ cleaned_rows df ↔
  ∃ r, r' = clean_row (columns df) r ∧ r ∈ rows df ∧
       complete required r ∧ complete required_numeric r'.
Proof.
  unfold cleaned_rows. rewrite list_elem_of_filter, elem_of_list_map.
  setoid_rewrite list_elem_of_filter. naive_solver.
Qed.

(** C1, as amended.  Whenever [clean_data] returns, every row of its result
    holds a number under [price] and under [bidCount]; under [startPrice] it
    holds a number or the undefined marker [NaN], and under [registeredDate]
    a timestamp or the undefined marker [NaT]. *)
Theorem clean_data_required_fields df df' r :
  clean_data df = Ok df' →
  r ∈ rows df' →
  (∃ x, cell r "price" = Num x) ∧
  (∃ x, cell r "bidCount" = Num x) ∧
  (cell r "startPrice" = NaN ∨ ∃ x, cell r "startPrice" = Num x) ∧
  (cell r "registeredDate" = NaT ∨ ∃ t, cell r "registeredDate" = Date t).
Proof.
  intros [Hcols ->]%clean_data_inv Hr. cbn [rows] in Hr.
  apply elem_of_cleaned_rows in Hr as (r0 & -> & _ & _ & Hnum).
  rewrite complete_spec in Hnum.
  assert (Hin : ∀ c, c ∈ (required ++ required_numeric)%list → c ∈ columns df)
    by (by apply Forall_forall).
  assert (Hnumeric : ∀ c, c ∈ required_numeric → c ∈ numeric_cols ∧
            ∃ x, cell (clean_row (columns df) r0) c = Num x).
  { intros c Hc. assert (c ∈ numeric_cols) as Hn.
    { revert Hc. unfold required_numeric, numeric_cols.
      rewrite !elem_of_cons. naive_solver. }
    split; [ done | ]. specialize (Hnum c Hc). revert Hnum.
    rewrite cell_clean_row, coercion_numeric
      by (try done; apply Hin, elem_of_app; by right).
    destruct (to_numeric_kind (cell r0 c)) as [ -> | [x ->] ]; [ done | eauto ]. }
  split; [ apply Hnumeric; unfold required_numeric; set_solver | ].
  split; [ apply Hnumeric; unfold required_numeric; set_solver | ].
  rewrite !cell_clean_row. split.
  - rewrite coercion_numeric;
      [ apply to_numeric_kind | unfold numeric_cols; set_solver
      | apply Hin; unfold required; set_solver ].
  - rewrite coercion_date;
      [ apply to_datetime_kind | unfold date_cols; set_solver
      | apply Hin; unfold required; set_solver ].
Qed.

(** C4, as amended.  A second run of the Cleaner on its own result removes
    the rows whose [startPrice] or [registeredDate] is undefined after
    coercion and changes nothing else; it returns its input when there is
    no such row. *)
Theorem clean_data_twice df df1 :
  clean_data df = Ok df1 →
  clean_data df1
  = Ok (DataFrame (columns df1)
          (filter (λ r, complete ["startPrice"; "registeredDate"] r) (rows df1)))
  ∧ (Forall (λ r, complete ["startPrice"; "registeredDate"] r) (rows df1) →
     clean_data df1 = Ok df1).
Proof.
  intros [Hcols ->]%clean_data_inv. cbn [columns rows].
  assert (Hfix : ∀ r, r ∈ cleaned_rows df → clean_row (columns df) r = r).
  { intros r (r0 & -> & _)%elem_of_cleaned_rows. apply clean_row_idemp. }
  assert (Hnum : ∀ r, r ∈ cleaned_rows df → complete required_numeric r).
  { intros r (r0 & -> & _ & _ & ?)%elem_of_cleaned_rows. done. }
  assert (Hstep : clean_data (DataFrame (columns df) (cleaned_rows df))
    = Ok (DataFrame (columns df)
            (filter (λ r, complete ["startPrice"; "registeredDate"] r)
                    (cleaned_rows df)))).
  { rewrite clean_data_Ok by done. cbn [columns]. do 2 f_equal.
    unfold cleaned_rows at 1. cbn [columns rows].
    rewrite map_fixed
      by (intros r [_ ?]%list_elem_of_filter; by apply Hfix).
    rewrite filter_all
      by (intros r [_ ?]%list_elem_of_filter; by apply Hnum).
    apply filter_ext_in. intros r Hr%Hnum.
    rewrite !complete_spec in *. unfold required, required_numeric in *.
    split; intros Hc c Hin; set_solver. }
  split; [ done | ].
  intros Hall. rewrite Hstep. do 2 f_equal.
  apply filter_all. by apply Forall_forall.
Qed.

(** C7.  Whenever [clean_data] returns, its result has the columns of the
    input and at most as many rows, and its rows are, in order, rows kept
    from the input: each agrees with the input row on every column the
    coercion loops do not touch (and holds the coerced cell elsewhere). *)
Theorem clean_data_row_subset df df' :
  clean_data df = Ok df' →
  columns df' = columns df ∧
  (length (rows df') ≤ length (rows df))%nat ∧
  ∃ kept, sublist kept (rows df) ∧
    Forall2 (λ r' r,
               ∀ c, (¬ (c ∈ (date_cols ++ numeric_cols)%list ∧ c ∈ columns df) →
                     cell r' c = cell r c) ∧
                    cell r' c = coercion (columns df) c (cell r c))
            (rows df') kept.
Proof.
  intros [Hcols ->]%clean_data_inv. cbn [columns rows].
  split; [ done | ].
  unfold cleaned_rows. rewrite filter_map.
  set (kept := filter _ (filter _ (rows df))).
  assert (Hsub : sublist kept (rows df)).
  { unfold kept. etrans; apply sublist_filter. }
  split; [ | exists kept; split; [ done | ] ].
  - rewrite length_map. by apply sublist_length.
  - clear Hsub. induction kept as [ | r kept IH ]; simpl; constructor; [ | done ].
    intros c. rewrite cell_clean_row. split; [ | done ].
    apply coercion_untouched.
Qed.

End CleanFacts.

(** ** [feature_engineering] *)

Lemma traverse_Ok_map {A B} (f : A → result B) (g : A → B) (l : list A) :
  (∀ x, x ∈ l → f x = Ok (g x)) → traverse f l = Ok (map g l).
Proof.
  induction l as [ | a l IH ]; intros Hf; [ done | ].
  cbn [traverse map]. rewrite Hf by apply list_elem_of_here.
  rewrite bind_Ok, IH; [ done | ].
  intros. by apply Hf, list_elem_of_further.
Qed.

Lemma cell_derive P `{!Decision P} c g r c' :
  cell (derive P c g r) c' = if decide (P ∧ c = c') then g r else cell r c'.
Proof.
  unfold derive. destruct (decide P); [ rewrite cell_insert | ]; decide_all.
Qed.

Lemma elem_of_label P `{!Decision P} c cols c' :
  c' ∈ label P c cols ↔ (P ∧ c' = c) ∨ c' ∈ cols.
Proof.
  unfold label. case_decide; [ rewrite elem_of_add_label | ]; tauto.
Qed.

Lemma assign_derive (P : Prop) `{!Decision P} c g cols rs :
  P →
  assign c g (DataFrame cols rs)
  = DataFrame (label P c cols) (map (derive P c g) rs).
Proof.
  intros HP. unfold assign, label, derive. cbn [columns rows].
  rewrite decide_True by done. f_equal.
  apply map_ext. intros r. by rewrite decide_True.
Qed.

Lemma skip_derive (P : Prop) `{!Decision P} c g cols rs :
  ¬ P → DataFrame cols rs = DataFrame (label P c cols) (map (derive P c g) rs).
Proof.
  intros HP. unfold label, derive. rewrite decide_False by done. f_equal.
  symmetry. apply map_fixed. intros r _. by rewrite decide_False.
Qed.

Lemma try_assign_Ok c f g df :
  (∀ r, r ∈ rows df → f r = Ok (g r)) → try_assign c f df = Ok (assign c g df).
Proof.
  intros Hf. unfold try_assign, assign.
  rewrite (traverse_Ok_map _ (λ r, <[c := g r]> r)); [ done | ].
  intros r Hr. by rewrite Hf.
Qed.

Lemma stage_assign (P' P : Prop) `{!Decision P', !Decision P} c f g cols rs :
  (P' ↔ P) →
  (P → ∀ r, r ∈ rs → f r = Ok (g r)) →
  (if decide P' then try_assign c f (DataFrame cols rs)
   else Ok (DataFrame cols rs))
  = Ok (DataFrame (label P c cols) (map (derive P c g) rs)).
Proof.
  intros HP Hf. case_decide as HP'.
  - rewrite (try_assign_Ok _ _ g) by (apply Hf; tauto).
    f_equal. apply assign_derive. tauto.
  - f_equal. apply skip_derive. tauto.
Qed.

Lemma zip_with_map_r {A B C} (h : A → B → C) (g : A → B) (l : list A) :
  zip_with h l (map g l) = map (λ a, h a (g a)) l.
Proof. induction l as [ | a l IH ]; [ done | ]. simpl. by rewrite IH. Qed.

Lemma domain_age_typed y v : date_or_na v → domain_age y v = Ok (age_of y v).
Proof. by destruct v. Qed.

Lemma price_diff_typed x y :
  num_or_na x → num_or_na y → price_diff x y = Ok (difference_of x y).
Proof. by destruct x, y. Qed.

Lemma date_diff_typed e s :
  date_or_na e → date_or_na s → date_diff e s = Ok (span e s).
Proof. by destruct e, s. Qed.

Lemma dt_days_spans {A} (e s : A → value) (l : list A) :
  dt_days (map (λ a, span (e a) (s a)) l)
  = Ok (map (λ a, days_between (e a) (s a)) l).
Proof.
  unfold dt_days.
  assert (existsb is_float (map (λ a, span (e a) (s a)) l) = false) as ->.
  { induction l as [ | a l IH ]; [ done | ]. simpl. rewrite IH.
    by destruct (e a), (s a). }
  f_equal. rewrite map_map. apply map_ext. intros a.
  by destruct (e a), (s a).
Qed.

Lemma stage_duration (P' P : Prop) `{!Decision P', !Decision P} cols rs :
  (P' ↔ P) →
  (P → ∀ r, r ∈ rs → date_or_na (cell r "endDate") ∧
                     date_or_na (cell r "startDate")) →
  (if decide P'
   then ds ← traverse (λ r, date_diff (cell r "endDate") (cell r "startDate"))
                      (rows (DataFrame cols rs));
        vs ← dt_days ds;
        Ok (assign_series "auctionDurationDays" vs (DataFrame cols rs))
   else Ok (DataFrame cols rs))
  = Ok (DataFrame (label P "auctionDurationDays" cols)
          (map (derive P "auctionDurationDays"
                  (λ r, days_between (cell r "endDate") (cell r "startDate")))
               rs)).
Proof.
  intros HP Hty. case_decide as HP'.
  - cbn [rows].
    rewrite (traverse_Ok_map _
               (λ r, span (cell r "endDate") (cell r "startDate")))
      by (intros r Hr; apply date_diff_typed; apply Hty; tauto).
    rewrite bind_Ok, dt_days_spans, bind_Ok.
    unfold assign_series. cbn [columns rows]. rewrite zip_with_map_r.
    f_equal. rewrite <- (assign_derive P) by tauto. done.
  - f_equal. apply skip_derive. tauto.
Qed.

Section FeatureFacts.

Variable current_year : Z.

Local Abbreviation derived_row := (derived_row current_year).

Ltac source_cell :=
  rewrite ?cell_derive;
  repeat (rewrite decide_False by (by intros [_ ?])).

Ltac source_label :=
  rewrite ?elem_of_label; intuition discriminate.

Lemma feature_engineering_typed df :
  typed df →
  feature_engineering current_year df
  = Ok (DataFrame (derived_columns (columns df))
          (map (derived_row (columns df)) (rows df))).
Proof.
  destruct df as [cols rs]. unfold typed, feature_engineering.
  cbn [columns rows]. rewrite Forall_forall. intros Hty.
  assert ((if decide ("url" ∈ cols)
           then Ok (assign "domainLength" (λ r, domain_length (cell r "url"))
                           (DataFrame cols rs))
           else Ok (DataFrame cols rs))
          = Ok (DataFrame (label ("url" ∈ cols) "domainLength" cols)
                  (map (derive ("url" ∈ cols) "domainLength"
                          (λ r, domain_length (cell r "url"))) rs))) as ->.
  { case_decide.
    - f_equal. by apply assign_derive.
    - f_equal. by apply skip_derive. }
  rewrite bind_Ok. cbn [columns].
  rewrite (stage_assign _ ("registeredDate" ∈ cols) _ _
             (λ r, age_of current_year (cell r "registeredDate"))).
  2: { source_label. }
  2: { intros HP r (r0 & -> & Hr0)%elem_of_list_map.
       apply domain_age_typed. source_cell. by apply Hty. }
  rewrite bind_Ok. cbn [columns].
  rewrite (stage_assign _ ("price" ∈ cols ∧ "startPrice" ∈ cols) _ _
             (λ r, difference_of (cell r "price") (cell r "startPrice"))).
  2: { source_label. }
  2: { intros HP r (r1 & -> & (r0 & -> & Hr0)%elem_of_list_map)%elem_of_list_map.
       apply price_diff_typed; source_cell; by apply Hty. }
  rewrite bind_Ok. cbn [columns].
  rewrite (stage_duration _ ("startDate" ∈ cols ∧ "endDate" ∈ cols)).
  2: { source_label. }
  2: { intros HP r (r2 & -> & (r1 & -> & (r0 & -> & Hr0)%elem_of_list_map)
                               %elem_of_list_map)%elem_of_list_map.
       source_cell. by apply Hty. }
  rewrite bind_Ok. unfold derived_columns, derived_row.
  by rewrite !map_map.
Qed.



End FeatureFacts.

Section CleanTyped.

Variable parse_datetime : string → option timestamp.
Variable parse_numeric : string → option Q.
Variable datetime_of_number : Q → option timestamp.

(** The Cleaner hands typed frames to the Feature Deriver. *)
Lemma clean_data_typed df df' :
  clean_data parse_datetime parse_numeric datetime_of_number df = Ok df' →
  typed df'.
Proof.
  intros [Hcols ->]%clean_data_inv. unfold typed. cbn [columns rows].
  apply Forall_forall. intros r (r0 & -> & _)%elem_of_cleaned_rows.
  assert (Hd : ∀ c v, c ∈ date_cols → c ∈ columns df →
            date_or_na (coercion parse_datetime parse_numeric
                          datetime_of_number (columns df) c v)).
  { intros c v ? ?. rewrite coercion_date by done.
    by destruct (to_datetime_kind parse_datetime datetime_of_number v)
      as [ -> | [t ->] ]. }
  assert (Hn : ∀ c v, c ∈ numeric_cols → c ∈ columns df →
            num_or_na (coercion parse_datetime parse_numeric
                         datetime_of_number (columns df) c v)).
  { intros c v ? ?. rewrite coercion_numeric by done.
    by destruct (to_numeric_kind parse_numeric v) as [ -> | [x ->] ]. }
  unfold typed_row. rewrite !cell_clean_row.
  repeat split; intros; (apply Hd || apply Hn);
    unfold date_cols, numeric_cols; set_solver.
Qed.

End CleanTyped.

(** ** [suggest_domains] *)

Lemma traverse_Ok_inv {A B} (f : A → result B) (l : list A) l' :
  traverse f l = Ok l' → Forall2 (λ a b, f a = Ok b) l l'.
Proof.
  revert l'. induction l as [ | a l IH ]; intros l'; cbn [traverse].
  - intros [= <-]. constructor.
  - intros (b & Hb & (bs & Hbs & [= <-])%bind_Ok_inv)%bind_Ok_inv.
    constructor; auto.
Qed.

Lemma Qltb_lt x y : Qltb x y = true ↔ (x < y)%Q.
Proof.
  unfold Qltb. rewrite Qlt_alt. destruct (x ?= y)%Q; split; congruence.
Qed.

Lemma selected_spec p q r :
  selected p q r ↔
  ∃ x y, cell r "price" = Num x ∧ cell r "ahrefsDomainRating" = Num y ∧
         (x < p)%Q ∧ (q < y)%Q.
Proof.
  unfold selected. split.
  - destruct (cell r "price") as [ | | | x | ]; try done.
    destruct (cell r "ahrefsDomainRating") as [ | | | y | ]; try done.
    intros [? ?]%Is_true_true%andb_true_iff. exists x, y.
    rewrite <- !Qltb_lt. done.
  - intros (x & y & -> & -> & ?%Qltb_lt & ?%Qltb_lt).
    apply Is_true_true, andb_true_iff. done.
Qed.

Lemma select_filter (mask : list bool) (rs : list row) (pred : row → bool) :
  Forall2 (λ r b, b = pred r) rs mask →
  select mask rs = filter (λ r, pred r) rs.
Proof.
  induction 1 as [ | r b rs mask -> _ IH ]; [ done | ].
  cbn [select]. rewrite filter_cons, IH.
  destruct (pred r); by decide_all.
Qed.

Lemma suggest_mask_inv df p q mask :
  suggest_mask df p q = Ok mask →
  Forall2 (λ r b, b = selected p q r) (rows df) mask.
Proof.
  unfold suggest_mask.
  intros (cheap & Hc%traverse_Ok_inv
          & (rated & Hr%traverse_Ok_inv & [= <-])%bind_Ok_inv)%bind_Ok_inv.
  revert rated Hr. induction Hc as [ | r b rs cheap Hb _ IH ];
    intros rated Hr; inversion Hr as [ | ? b' ? rated' Hb' Hr' ]; subst;
    cbn [zip_with]; constructor; [ | by apply IH ].
  unfold selected, lt_cell, gt_cell in *.
  destruct (cell r "price"), (cell r "ahrefsDomainRating");
    simplify_eq; try done.
  by rewrite andb_false_r.
Qed.

Lemma suggest_mask_Ok df p q :
  Forall (λ r, num_or_na (cell r "price") ∧
               num_or_na (cell r "ahrefsDomainRating")) (rows df) →
  ∃ mask, suggest_mask df p q = Ok mask.
Proof.
  intros Hty. unfold suggest_mask.
  rewrite (traverse_Ok_map (λ r, lt_cell (cell r "price") p)
             (λ r, match cell r "price" with
                   | Num x => Qltb x p | _ => false end)).
  2: { intros r Hr. rewrite Forall_forall in Hty.
       destruct (Hty r Hr) as [Hp _]. revert Hp. unfold lt_cell.
       destruct (cell r "price"); simpl; done. }
  rewrite bind_Ok.
  rewrite (traverse_Ok_map (λ r, gt_cell (cell r "ahrefsDomainRating") q)
             (λ r, match cell r "ahrefsDomainRating" with
                   | Num y => Qltb q y | _ => false end)).
  2: { intros r Hr. rewrite Forall_forall in Hty.
       destruct (Hty r Hr) as [_ Hq]. revert Hq. unfold gt_cell.
       destruct (cell r "ahrefsDomainRating"); simpl; done. }
  rewrite bind_Ok. eauto.
Qed.

Lemma first_missing_None cols df :
  first_missing cols df = None ↔ Forall (λ c, c ∈ columns df) cols.
Proof.
  induction cols as [ | c cols IH ]; cbn [first_missing].
  - split; [ constructor | done ].
  - rewrite Forall_cons, <- IH. case_decide; naive_solver.
Qed.

Lemma first_missing_Some cols df col :
  first_missing cols df = Some col → col ∈ cols ∧ col ∉ columns df.
Proof.
  induction cols as [ | c cols IH ]; cbn [first_missing]; [ done | ].
  case_decide.
  - intros [? ?]%IH. split; [ by apply list_elem_of_further | done ].
  - intros [= <-]. split; [ apply list_elem_of_here | done ].
Qed.

Lemma StronglySorted_map_snd {K} (S : relation (K * row)) (R : relation row)
    (l : list (K * row)) :
  (∀ a b, a ∈ l → b ∈ l → S a b → R a.2 b.2) →
  StronglySorted S l → StronglySorted R (map snd l).
Proof.
  intros HSR Hl. induction Hl as [ | a l Hl IH Ha ]; simpl; constructor.
  - apply IH. intros ?????. apply HSR; by try apply list_elem_of_further.
  - apply Forall_forall. intros r (b & -> & Hb)%elem_of_list_map.
    rewrite Forall_forall in Ha.
    apply HSR; [ apply list_elem_of_here | by apply list_elem_of_further | auto ].
Qed.

Section SuggestFacts.

Context `{Sorter}.

Lemma sorted_desc_perm by_ rs : sorted_desc by_ rs ≡ₚ rs.
Proof.
  unfold sorted_desc.
  rewrite reverse_Permutation, np_sort_perm, reverse_Permutation.
  rewrite map_map. simpl. by rewrite map_id.
Qed.

Lemma sorted_desc_sorted by_ rs :
  (∀ r, r ∈ rs → ∃ x, cell r by_ = Num x) →
  StronglySorted (descending by_) (sorted_desc by_ rs).
Proof.
  intros Hnum. unfold sorted_desc.
  set (l := reverse (map _ rs)).
  eapply (StronglySorted_map_snd (λ a b, flip Qle a.1 b.1)).
  - assert (Hin : ∀ a, a ∈ reverse (np_sort _ fst l) →
                       cell a.2 by_ = Num a.1).
    { intros a. rewrite reverse_Permutation, np_sort_perm. unfold l.
      rewrite reverse_Permutation.
      intros (r & -> & Hr)%elem_of_list_map. simpl.
      destruct (Hnum r Hr) as [x Hx]. unfold number_under. by rewrite Hx. }
    intros a b Ha%Hin Hb%Hin Hab. exists a.1, b.1. done.
  - apply Sorted_StronglySorted.
    + intros x y z Hxy Hyz. unfold flip in *. by eapply Qle_trans.
    + apply (Sorted_reverse (λ a b, (a.1 <= b.1)%Q)). apply np_sort_sorted.
Qed.

Lemma sorted_desc_singleton by_ r : sorted_desc by_ [r] = [r].
Proof.
  apply Permutation_singleton_r. apply sorted_desc_perm.
Qed.

Lemma sorted_desc_nil by_ : sorted_desc by_ [] = [].
Proof. apply Permutation_nil_r. apply sorted_desc_perm. Qed.

Lemma sort_values_desc_numeric by_ cols rs :
  (∀ r, r ∈ rs → ∃ x, cell r by_ = Num x) →
  sort_values_desc by_ (DataFrame cols rs)
  = Ok (DataFrame cols (sorted_desc by_ rs)).
Proof.
  intros Hnum. unfold sort_values_desc. cbn [rows columns].
  rewrite (traverse_Ok_map (sort_key by_)
             (λ r, (Some (number_under by_ r), r))).
  2: { intros r [x Hx]%Hnum. unfold sort_key, number_under. by rewrite Hx. }
  rewrite bind_Ok.
  assert (omap keyed (map (λ r, (Some (number_under by_ r), r)) rs)
          = map (λ r, (number_under by_ r, r)) rs) as ->.
  { clear Hnum. induction rs as [ | r rs IH ]; [ done | ].
    cbn. f_equal. apply IH. }
  assert (filter (λ kr : option Q * row, kr.1 = None)
            (map (λ r, (Some (number_under by_ r), r)) rs) = []) as ->.
  { clear Hnum. induction rs as [ | r rs IH ]; [ done | ].
    cbn [map]. by rewrite filter_cons_False. }
  cbn [map]. by rewrite app_nil_r.
Qed.

(** [suggest_domains] in one expression. *)
Lemma suggest_domains_returned df p q R :
  returned (suggest_domains df p q) = Ok R →
  (first_missing ["price"; "ahrefsDomainRating"] df ≠ None ∧ R = empty_frame) ∨
  (first_missing ["price"; "ahrefsDomainRating"] df = None ∧
   R = DataFrame (columns df)
         (sorted_desc "ahrefsDomainRating"
            (filter (λ r, selected p q r) (rows df)))).
Proof.
  unfold suggest_domains.
  destruct (first_missing _ df) as [ col | ]; cbn [returned].
  - intros [= <-]. by left.
  - intros (mask & Hmask%suggest_mask_inv & Hsort)%bind_Ok_inv.
    right. split; [ done | ].
    rewrite (select_filter _ _ _ Hmask) in Hsort.
    rewrite sort_values_desc_numeric in Hsort; [ by simplify_eq | ].
    intros r [(x & y & _ & Hy & _)%selected_spec _]%list_elem_of_filter.
    eauto.
Qed.

End SuggestFacts.

Section SuggestTheorems.

Context `{Sorter}.

(** C2.  On a frame with the columns [price] and [ahrefsDomainRating], every
    row [suggest_domains] returns holds a price below the price threshold
    and a rating above the rating threshold, both strictly; every row of the
    frame that does is returned; no row undefined under either label is.
    The call returns when the two columns hold numbers or the undefined
    marker. *)
Theorem suggest_domains_selects df p q :
  "price" ∈ columns df →
  "ahrefsDomainRating" ∈ columns df →
  (∀ R, returned (suggest_domains df p q) = Ok R →
     (∀ r, r ∈ rows R →
        ∃ x y, cell r "price" = Num x ∧ cell r "ahrefsDomainRating" = Num y ∧
               (x < p)%Q ∧ (q < y)%Q) ∧
     (∀ r x y, r ∈ rows df →
        cell r "price" = Num x → cell r "ahrefsDomainRating" = Num y →
        (x < p)%Q → (q < y)%Q → r ∈ rows R) ∧
     (∀ r, r ∈ rows df →
        isna (cell r "price") ∨ isna (cell r "ahrefsDomainRating") →
        r ∉ rows R)) ∧
  (Forall (λ r, num_or_na (cell r "price") ∧
                num_or_na (cell r "ahrefsDomainRating")) (rows df) →
   ∃ R, returned (suggest_domains df p q) = Ok R).
Proof.
  intros Hprice Hrating.
  assert (Hcols : first_missing ["price"; "ahrefsDomainRating"] df = None).
  { apply first_missing_None. by repeat constructor. }
  split.
  - intros R [ [? _] | [_ ->] ]%suggest_domains_returned; [ done | ].
    cbn [rows].
    assert (Hin : ∀ r, r ∈ sorted_desc "ahrefsDomainRating"
                             (filter (λ r, selected p q r) (rows df))
                       ↔ selected p q r ∧ r ∈ rows df).
    { intros r. by rewrite sorted_desc_perm, list_elem_of_filter. }
    split; [ | split ].
    + intros r [Hsel _]%Hin. by apply selected_spec.
    + intros r x y Hr Hx Hy Hlt Hgt. apply Hin. split; [ | done ].
      apply selected_spec. eauto 10.
    + intros r Hr Hna [(x & y & Hx & Hy & _)%selected_spec _]%Hin.
      rewrite Hx, Hy in Hna. by destruct Hna.
  - intros [mask Hmask]%(suggest_mask_Ok df p q).
    unfold suggest_domains. rewrite Hcols. cbn [returned].
    rewrite Hmask, bind_Ok.
    apply suggest_mask_inv in Hmask.
    rewrite (select_filter _ _ _ Hmask).
    rewrite sort_values_desc_numeric; [ eauto | ].
    intros r [(x & y & _ & Hy & _)%selected_spec _]%list_elem_of_filter.
    eauto.
Qed.

(** X16.  The rows [suggest_domains] returns are in non-increasing order of
    [ahrefsDomainRating] and are the selected rows of the frame, each as
    many times as it is selected.  (Which of two rows of equal rating comes
    first is the sorting routine's, and is not stated.) *)
Theorem suggest_domains_descending df p q R :
  "price" ∈ columns df →
  "ahrefsDomainRating" ∈ columns df →
  returned (suggest_domains df p q) = Ok R →
  StronglySorted (descending "ahrefsDomainRating") (rows R) ∧
  rows R ≡ₚ filter (λ r, selected p q r) (rows df).
Proof.
  intros Hprice Hrating [ [Hm _] | [_ ->] ]%suggest_domains_returned.
  { exfalso. apply Hm, first_missing_None. by repeat constructor. }
  cbn [rows]. split; [ | apply sorted_desc_perm ].
  apply sorted_desc_sorted.
  intros r [(x & y & _ & Hy & _)%selected_spec _]%list_elem_of_filter.
  eauto.
Qed.

(** C5.  On a frame that lacks [price] or [ahrefsDomainRating],
    [suggest_domains] raises nothing: it prints one line that names the
    first of the two labels that is missing and returns the empty frame. *)
Theorem suggest_domains_missing_column df p q :
  "price" ∉ columns df ∨ "ahrefsDomainRating" ∉ columns df →
  ∃ col, col ∈ ["price"; "ahrefsDomainRating"] ∧ (col ∉ columns df) ∧
    suggest_domains df p q
    = Outcome ["Column " +:+ (col +:+ " not found in DataFrame.")]
              (Ok empty_frame).
Proof.
  intros Hmiss. unfold suggest_domains.
  destruct (first_missing _ df) as [ col | ] eqn:Hf.
  - apply first_missing_Some in Hf as [? ?]. exists col. done.
  - apply first_missing_None in Hf.
    rewrite !Forall_cons in Hf. tauto.
Qed.

(** C10.  A call that gives no rating threshold runs with 10, the default of
    the signature; the call in [main] gives 20, and the two thresholds do
    not select the same rows. *)
Theorem suggest_domains_default_rating :
  (∀ df, call_suggest_domains df (Some 500%Q) None
         = suggest_domains df 500 10) ∧
  (∀ df, call_suggest_domains df None None = suggest_domains df 500 10) ∧
  (∀ df, main_suggested df = suggest_domains df 500 20) ∧
  (∃ df, call_suggest_domains df (Some 500%Q) None ≠ main_suggested df).
Proof.
  repeat split.
  exists (DataFrame ["price"; "ahrefsDomainRating"]
            [ {[ "price" := Num 100; "ahrefsDomainRating" := Num 15 ]} ]).
  unfold main_suggested, call_suggest_domains, suggest_domains.
  cbn [first_missing columns]. rewrite !decide_True by set_solver.
  cbn [default rows returned printed]. intros Heq.
  apply (f_equal returned) in Heq. cbn [returned] in Heq.
  revert Heq. vm_compute suggest_mask. rewrite !bind_Ok. cbn [select].
  rewrite !sort_values_desc_numeric.
  - rewrite sorted_desc_singleton, sorted_desc_nil. done.
  - intros r Hr. by apply elem_of_nil in Hr.
  - intros r ->%list_elem_of_singleton. by eexists.
Qed.

End SuggestTheorems.

(** ** Frames as objects *)

Module StoreFacts.

Local Abbreviation world := Store.world.
Local Abbreviation loc := Store.loc.
Local Abbreviation prog := Store.prog.
Local Abbreviation heap := Store.heap.
Local Abbreviation stdout := Store.stdout.
Local Abbreviation World := Store.World.
Local Abbreviation and_then := Store.and_then.
Local Abbreviation lift := Store.lift.
Local Abbreviation ret := Store.ret.
Local Abbreviation read := Store.read.
Local Abbreviation write := Store.write.
Local Abbreviation new_frame := Store.new_frame.
Local Abbreviation print := Store.print.
Local Abbreviation sort_values_inplace := Store.sort_values_inplace.

Lemma and_then_Ok {A B} (m : prog A) (k : A → prog B) w a w' :
  m w = Some (Ok a, w') → and_then m k w = k a w'.
Proof. unfold and_then. by intros ->. Qed.

Lemma read_Some l w T : heap w !! l = Some T → read l w = Some (Ok T, w).
Proof. unfold read. by intros ->. Qed.

Lemma write_Some l w T T' :
  heap w !! l = Some T →
  write l T' w = Some (Ok (), World (<[l := T']> (heap w)) (stdout w)).
Proof. unfold write. by intros ->. Qed.

Section Suggest.

Context `{Sorter}.

Lemma sort_values_inplace_run by_ l w T :
  heap w !! l = Some T →
  sort_values_inplace by_ l w
  = match sort_values_desc by_ T with
    | Ok T' => Some (Ok (), World (<[l := T']> (heap w)) (stdout w))
    | Raise e => Some (Raise e, w)
    end.
Proof.
  intros Hl. unfold Store.sort_values_inplace.
  rewrite (and_then_Ok _ _ _ _ _ (read_Some _ _ _ Hl)).
  destruct (sort_values_desc by_ T) as [ T' | e ].
  - unfold Store.and_then, Store.lift. by apply write_Some with T.
  - done.
Qed.

(** The object program computes what the function on frames computes: it
    prints the same lines and returns a fresh object holding the same
    frame, or raises the same exception; the objects that existed before
    the call hold what they held. *)
Lemma suggest_domains_object w df p q T :
  heap w !! df = Some T →
  ∃ res w', Store.suggest_domains df p q w = Some (res, w') ∧
    stdout w' = (stdout w ++ printed (suggest_domains T p q))%list ∧
    match returned (suggest_domains T p q) with
    | Ok R => ∃ l, res = Ok l ∧ (length (heap w) ≤ l)%nat ∧
                   heap w' !! l = Some R
    | Raise e => res = Raise e
    end ∧
    (∀ l T0, heap w !! l = Some T0 → heap w' !! l = Some T0).
Proof.
  intros Hdf. unfold Store.suggest_domains, suggest_domains.
  rewrite (and_then_Ok _ _ _ _ _ (read_Some _ _ _ Hdf)).
  destruct (first_missing _ T) as [ col | ]; cbn [printed returned].
  - eexists _, _. split; [ reflexivity | ]. cbn [heap stdout].
    split; [ done | ]. split.
    + exists (length (heap w)). split; [ done | ]. split; [ done | ].
      by rewrite list_lookup_middle.
    + intros l T0 Hl. by rewrite lookup_app_l by (by eapply lookup_lt_Some).
  - destruct (suggest_mask T p q) as [ mask | e ]; cbn [mbind result_bind].
    2: { eexists _, _. split; [ reflexivity | ]. rewrite app_nil_r. done. }
    set (S := DataFrame (columns T) (select mask (rows T))).
    unfold and_then at 1. cbn [lift].
    unfold and_then at 1. cbn [new_frame heap stdout].
    set (w1 := World (heap w ++ [S]) (stdout w)).
    assert (H1 : heap w1 !! length (heap w) = Some S)
      by (by apply list_lookup_middle).
    rewrite (and_then_Ok _ _ _ _ _ (read_Some _ _ _ H1)).
    unfold and_then at 1. cbn [new_frame].
    set (l2 := length (heap w1)).
    set (w2 := World (heap w1 ++ [S]) (stdout w1)).
    assert (Hl2 : l2 = Datatypes.S (length (heap w))).
    { unfold l2, w1. cbn [heap]. rewrite length_app. simpl. lia. }
    assert (H2 : heap w2 !! l2 = Some S) by (by apply list_lookup_middle).
    unfold and_then at 1. rewrite (sort_values_inplace_run _ _ _ _ H2).
    destruct (sort_values_desc "ahrefsDomainRating" S) as [ S' | e ].
    + eexists _, _. split; [ reflexivity | ].
      unfold w2, w1 in *. cbn [heap stdout] in *.
      rewrite app_nil_r. split; [ done | ]. split.
      * exists l2. split; [ done | ]. split; [ lia | ].
        apply list_lookup_insert_eq. by eapply lookup_lt_Some.
      * intros l T0 Hl.
        assert (l < length (heap w))%nat by (by eapply lookup_lt_Some).
        rewrite list_lookup_insert_ne by lia.
        rewrite <- app_assoc. by rewrite lookup_app_l.
    + eexists _, _. split; [ reflexivity | ].
      unfold w2, w1 in *. cbn [heap stdout] in *.
      rewrite app_nil_r. split; [ done | ]. split; [ done | ].
      intros l T0 Hl.
      assert (l < length (heap w))%nat by (by eapply lookup_lt_Some).
      rewrite <- app_assoc. by rewrite lookup_app_l.
Qed.

(** C8.  A call of [suggest_domains] on a frame object completes and leaves
    that object, and every object that existed before the call, holding
    the frame it held: the selection and the copy are new objects, and the
    sort in place runs on the copy. *)
Theorem suggest_domains_keeps_input w df p q T :
  heap w !! df = Some T →
  ∃ res w', Store.suggest_domains df p q w = Some (res, w') ∧
    heap w' !! df = Some T ∧
    (∀ l T0, heap w !! l = Some T0 → heap w' !! l = Some T0).
Proof.
  intros Hdf.
  destruct (suggest_domains_object w df p q T Hdf)
    as (res & w' & Hrun & _ & _ & Hframe).
  exists res, w'. auto.
Qed.

End Suggest.

End StoreFacts.

(** ** A sorting routine within the contract *)

Global Instance key_le_total {A} (key : A → Q) : Total (key_le key).
Proof.
  intros a b. unfold key_le.
  destruct (Qlt_le_dec (key a) (key b)); [ left; by apply Qlt_le_weak | by right ].
Qed.

Lemma stable_sort_perm A (key : A → Q) l : stable_sort A key l ≡ₚ l.
Proof. apply merge_sort_Permutation. Qed.

Lemma stable_sort_sorted A (key : A → Q) l :
  Sorted (λ a b, (key a <= key b)%Q) (stable_sort A key l).
Proof. apply (Sorted_merge_sort (key_le key)). Qed.

Definition stable_sorter : Sorter :=
  Build_Sorter stable_sort stable_sort_perm stable_sort_sorted.

(** ** The specification's claims on concrete frames *)

(** C1 fails as stated: the Cleaner returns a row whose [startPrice] is
    undefined after coercion, and a row whose [registeredDate] is. *)
Lemma clean_data_leaves_undefined :
  clean_data Reference.datetime Reference.numeric Reference.instant
             Examples.unparsed
  = Ok Examples.unparsed_cleaned ∧
  map (λ r, (cell r "startPrice", cell r "registeredDate"))
      (rows Examples.unparsed_cleaned)
  = [(NaN, Date (Timestamp 2015 1 1 0)); (Num 500, NaT)].
Proof. split; vm_compute; reflexivity. Qed.

Lemma clean_data_required_fields_witness :
  let r := Examples.listing (Str "ab.com") (Num 100) NaN (Num 30)
             (Date (Timestamp 2015 1 1 0)) (Num 2) in
  (∃ x, cell r "price" = Num x) ∧
  (∃ x, cell r "bidCount" = Num x) ∧
  (cell r "startPrice" = NaN ∨ ∃ x, cell r "startPrice" = Num x) ∧
  (cell r "registeredDate" = NaT ∨ ∃ t, cell r "registeredDate" = Date t).
Proof.
  intros r.
  apply (clean_data_required_fields
           Reference.datetime Reference.numeric Reference.instant
           Examples.unparsed Examples.unparsed_cleaned r).
  - vm_compute. reflexivity.
  - apply list_elem_of_here.
Defined.

(** C4 fails as stated: a second run of the Cleaner removes the rows the
    first run left with an undefined [startPrice] or [registeredDate]. *)
Lemma clean_data_not_idempotent :
  clean_data Reference.datetime Reference.numeric Reference.instant
             Examples.unparsed
  = Ok Examples.unparsed_cleaned ∧
  clean_data Reference.datetime Reference.numeric Reference.instant
             Examples.unparsed_cleaned
  = Ok (DataFrame Examples.listing_columns []) ∧
  DataFrame Examples.listing_columns [] ≠ Examples.unparsed_cleaned.
Proof.
  split; [ vm_compute; reflexivity | ].
  split; [ vm_compute; reflexivity | ].
  intros Heq. apply (f_equal (λ df, length (rows df))) in Heq.
  vm_compute in Heq. discriminate.
Qed.

Lemma clean_data_twice_witness :
  clean_data Reference.datetime Reference.numeric Reference.instant
             Examples.unparsed_cleaned
  = Ok (DataFrame (columns Examples.unparsed_cleaned)
          (filter (λ r, complete ["startPrice"; "registeredDate"] r)
                  (rows Examples.unparsed_cleaned)))
  ∧ (Forall (λ r, complete ["startPrice"; "registeredDate"] r)
            (rows Examples.unparsed_cleaned) →
     clean_data Reference.datetime Reference.numeric Reference.instant
                Examples.unparsed_cleaned
     = Ok Examples.unparsed_cleaned).
Proof.
  apply (clean_data_twice
           Reference.datetime Reference.numeric Reference.instant
           Examples.unparsed Examples.unparsed_cleaned).
  vm_compute. reflexivity.
Defined.

Lemma clean_data_row_subset_witness :
  columns Examples.unparsed_cleaned = columns Examples.unparsed ∧
  (length (rows Examples.unparsed_cleaned)
   ≤ length (rows Examples.unparsed))%nat ∧
  ∃ kept, sublist kept (rows Examples.unparsed) ∧
    Forall2 (λ r' r,
               ∀ c, (¬ (c ∈ (date_cols ++ numeric_cols)%list ∧
                        c ∈ columns Examples.unparsed) →
                     cell r' c = cell r c) ∧
                    cell r' c
                    = coercion Reference.datetime Reference.numeric
                        Reference.instant (columns Examples.unparsed) c
                        (cell r c))
            (rows Examples.unparsed_cleaned) kept.
Proof.
  apply (clean_data_row_subset
           Reference.datetime Reference.numeric Reference.instant
           Examples.unparsed Examples.unparsed_cleaned).
  vm_compute. reflexivity.
Defined.



Lemma suggest_domains_descending_witness :
  ∃ R, returned (suggest_domains (H := stable_sorter) Examples.ties 500 20)
       = Ok R ∧
       StronglySorted (descending "ahrefsDomainRating") (rows R) ∧
       rows R ≡ₚ filter (λ r, selected 500 20 r) (rows Examples.ties).
Proof.
  eexists. split; [ vm_compute; reflexivity | ].
  apply (suggest_domains_descending (H := stable_sorter) Examples.ties 500 20).
  - apply (bool_decide_unpack _). vm_compute. exact I.
  - apply (bool_decide_unpack _). vm_compute. exact I.
  - vm_compute. reflexivity.
Defined.

Lemma suggest_domains_selects_witness :
  (∀ R, returned (suggest_domains (H := stable_sorter)
                    Examples.scenario_cleaned 500 20) = Ok R →
     (∀ r, r ∈ rows R →
        ∃ x y, cell r "price" = Num x ∧ cell r "ahrefsDomainRating" = Num y ∧
               (x < 500)%Q ∧ (20 < y)%Q) ∧
     (∀ r x y, r ∈ rows Examples.scenario_cleaned →
        cell r "price" = Num x → cell r "ahrefsDomainRating" = Num y →
        (x < 500)%Q → (20 < y)%Q → r ∈ rows R) ∧
     (∀ r, r ∈ rows Examples.scenario_cleaned →
        isna (cell r "price") ∨ isna (cell r "ahrefsDomainRating") →
        r ∉ rows R)) ∧
  (Forall (λ r, num_or_na (cell r "price") ∧
                num_or_na (cell r "ahrefsDomainRating"))
          (rows Examples.scenario_cleaned) →
   ∃ R, returned (suggest_domains (H := stable_sorter)
                    Examples.scenario_cleaned 500 20) = Ok R).
Proof.
  apply (suggest_domains_selects (H := stable_sorter)
           Examples.scenario_cleaned 500 20).
  - apply (bool_decide_unpack _). vm_compute. exact I.
  - apply (bool_decide_unpack _). vm_compute. exact I.
Defined.

Lemma suggest_domains_missing_column_witness :
  ∃ col, col ∈ ["price"; "ahrefsDomainRating"] ∧
    (col ∉ columns Examples.uncoerced) ∧
    suggest_domains (H := stable_sorter) Examples.uncoerced 500 20
    = Outcome ["Column " +:+ (col +:+ " not found in DataFrame.")]
              (Ok empty_frame).
Proof.
  apply (suggest_domains_missing_column (H := stable_sorter)
           Examples.uncoerced 500 20).
  left. apply (bool_decide_unpack _). vm_compute. exact I.
Defined.

Lemma suggest_domains_keeps_input_witness :
  ∃ res w',
    Store.suggest_domains (H := stable_sorter) 0%nat 500 20
      (Store.World [Examples.ties] []) = Some (res, w') ∧
    Store.heap w' !! 0%nat = Some Examples.ties ∧
    (∀ l T0, Store.heap (Store.World [Examples.ties] []) !! l = Some T0 →
             Store.heap w' !! l = Some T0).
Proof.
  apply (StoreFacts.suggest_domains_keeps_input (H := stable_sorter)
           (Store.World [Examples.ties] []) 0%nat 500 20 Examples.ties).
  reflexivity.
Defined.

Section Scenario.

Context `{Sorter}.

Variable parse_datetime : string → option timestamp.
Variable parse_numeric : string → option Q.
Variable datetime_of_number : Q → option timestamp.
Variable current_year : Z.

(** C9.  On the frame of rows A, B and a row C with no price: the Cleaner
    returns rows A and B; the Feature Deriver gives both a [domainLength]
    of 6, and a [priceDiff] of 20 to A and of 100 to B; and
    [suggest_domains] with thresholds 500 and 20 returns row A alone. *)
Theorem end_to_end_scenario rowC :
  isna (cell rowC "price") →
  clean_data parse_datetime parse_numeric datetime_of_number
             (Examples.scenario rowC)
  = Ok (DataFrame Examples.listing_columns [Examples.rowA; Examples.rowB]) ∧
  feature_engineering current_year
    (DataFrame Examples.listing_columns [Examples.rowA; Examples.rowB])
  = Ok (Examples.scenario_engineered current_year) ∧
  map (λ r, (cell r "domainLength", cell r "priceDiff"))
      (rows (Examples.scenario_engineered current_year))
  = [(Num 6, Num 20); (Num 6, Num 100)] ∧
  suggest_domains (Examples.scenario_engineered current_year) 500 20
  = Outcome []
      (Ok (DataFrame Examples.engineered_columns
             [Examples.engineered Examples.rowA 6
                (inject_Z (current_year - 2015)) 20])).
Proof.
  intros HC. split; [ | split; [ | split ] ].
  - rewrite clean_data_Ok
      by (apply (bool_decide_unpack _); vm_compute; exact I).
    unfold Examples.scenario. cbn [columns rows]. do 2 f_equal.
    unfold cleaned_rows. cbn [rows columns].
    rewrite !filter_cons.
    rewrite (decide_False (P := Is_true (complete required rowC))).
    2: { rewrite complete_spec. intros Hall.
         assert (Hp : notna (cell rowC "price"))
           by (apply Hall; unfold required; set_solver).
         revert HC Hp. unfold notna. by destruct (isna _). }
    rewrite !decide_True by (vm_compute; exact I).
    rewrite filter_nil. cbn [map]. rewrite !filter_cons, filter_nil.
    rewrite !decide_True by (vm_compute; exact I).
    vm_compute. reflexivity.
  - vm_compute. reflexivity.
  - vm_compute. reflexivity.
  - unfold suggest_domains.
    assert (first_missing ["price"; "ahrefsDomainRating"]
              (Examples.scenario_engineered current_year) = None) as ->
      by (vm_compute; reflexivity).
    f_equal.
    assert (suggest_mask (Examples.scenario_engineered current_year) 500 20
            = Ok [true; false]) as -> by (vm_compute; reflexivity).
    rewrite bind_Ok. cbn [Examples.scenario_engineered rows columns select].
    rewrite sort_values_desc_numeric.
    + by rewrite sorted_desc_singleton.
    + intros r ->%list_elem_of_singleton. eexists. vm_compute. reflexivity.
Qed.

End Scenario.

Lemma end_to_end_scenario_witness :
  isna (cell Examples.rowC "price") ∧
  suggest_domains (H := stable_sorter) (Examples.scenario_engineered 2025)
                  500 20
  = Outcome []
      (Ok (DataFrame Examples.engineered_columns
             [Examples.engineered Examples.rowA 6 10 20])).
Proof.
  split; [ exact I | ].
  apply (end_to_end_scenario (H := stable_sorter)
           Reference.datetime Reference.numeric Reference.instant 2025
           Examples.rowC).
  exact I.
Defined.

(** * Further properties of the stages *)

(** ** [clean_data] *)

Lemma dropna_Raise subset df c missing :
  filter (λ c, c ∉ columns df) subset = c :: missing →
  dropna subset df = Raise (KeyError (c :: missing)).
Proof. unfold dropna. by intros ->. Qed.

Section CleanBehaviour.

Variable parse_datetime : string → option timestamp.
Variable parse_numeric : string → option Q.
Variable datetime_of_number : Q → option timestamp.

Local Abbreviation to_datetime := (to_datetime parse_datetime datetime_of_number).
Local Abbreviation to_numeric := (to_numeric parse_numeric).
Local Abbreviation clean_data :=
  (clean_data parse_datetime parse_numeric datetime_of_number).
Local Abbreviation clean_row :=
  (clean_row parse_datetime parse_numeric datetime_of_number).
Local Abbreviation coercion :=
  (coercion parse_datetime parse_numeric datetime_of_number).
Local Abbreviation cleaned_rows :=
  (cleaned_rows parse_datetime parse_numeric datetime_of_number).

(** X1.  [clean_data] returns exactly when the frame has the columns
    [price], [startPrice], [registeredDate] and [bidCount].  When some of the
    first three are missing it raises a KeyError that names the missing ones;
    when only [bidCount] is missing it raises a KeyError that names it. *)
Theorem clean_data_missing_column df :
  ((∃ df', clean_data df = Ok df') ↔
   Forall (λ c, c ∈ columns df)
          ["price"; "startPrice"; "registeredDate"; "bidCount"]) ∧
  (∀ c missing,
     filter (λ c, c ∉ columns df) ["price"; "startPrice"; "registeredDate"]
     = c :: missing →
     clean_data df = Raise (KeyError (c :: missing))) ∧
  (Forall (λ c, c ∈ columns df) ["price"; "startPrice"; "registeredDate"] →
   "bidCount" ∉ columns df →
   clean_data df = Raise (KeyError ["bidCount"])).
Proof.
  split; [ | split ].
  - split.
    + intros [df' [Hcols _]%clean_data_inv].
      revert Hcols. unfold required, required_numeric.
      rewrite !Forall_app, !Forall_cons. tauto.
    + intros Hcols. eexists. apply clean_data_Ok.
      revert Hcols. unfold required, required_numeric.
      rewrite !Forall_app, !Forall_cons. tauto.
  - intros c missing Hm. rewrite clean_data_eq.
    by rewrite (dropna_Raise required df c missing Hm).
  - intros Hreq Hbid. rewrite clean_data_eq.
    rewrite (dropna_Ok required df Hreq), bind_Ok.
    rewrite (dropna_Raise required_numeric _ "bidCount" []); [ done | ].
    rewrite !coerce_columns_spec. cbn [columns].
    unfold required_numeric. rewrite !filter_cons, filter_nil.
    rewrite !Forall_cons in Hreq. destruct Hreq as (Hprice & _).
    rewrite decide_False by tauto. by rewrite decide_True.
Qed.

(** X2.  Which rows [clean_data] keeps: a row of the input with no missing
    [price], [startPrice] and [registeredDate], whose [price] and [bidCount]
    coerce to numbers, is returned with its cells coerced; every returned
    row comes from such a row; and as many rows are returned as there are
    such rows.  Whether [startPrice] or [registeredDate] coerce plays no
    part. *)
Theorem clean_data_kept_rows df df' :
  clean_data df = Ok df' →
  let kept (r : row) : bool :=
    complete ["price"; "startPrice"; "registeredDate"] r &&
    notna (to_numeric (cell r "price")) &&
    notna (to_numeric (cell r "bidCount")) in
  (∀ r, r ∈ rows df → kept r →
     ∃ r', r' ∈ rows df' ∧ ∀ c, cell r' c = coercion (columns df) c (cell r c)) ∧
  (∀ r', r' ∈ rows df' →
     ∃ r, r ∈ rows df ∧ kept r ∧
          ∀ c, cell r' c = coercion (columns df) c (cell r c)) ∧
  length (rows df') = length (filter (λ r, kept r) (rows df)).
Proof.
  intros [Hcols ->]%clean_data_inv kept. cbn [rows].
  assert (Hin : ∀ c, c ∈ (required ++ required_numeric)%list → c ∈ columns df)
    by (by apply Forall_forall).
  assert (Hnum : ∀ r, complete required_numeric (clean_row (columns df) r)
                      ↔ notna (to_numeric (cell r "price")) ∧
                        notna (to_numeric (cell r "bidCount"))).
  { intros r.
    assert (Hp : "price" ∈ columns df)
      by (apply Hin; unfold required, required_numeric; set_solver).
    assert (Hb : "bidCount" ∈ columns df)
      by (apply Hin; unfold required, required_numeric; set_solver).
    assert (Hpn : "price" ∈ numeric_cols) by (unfold numeric_cols; set_solver).
    assert (Hbn : "bidCount" ∈ numeric_cols)
      by (unfold numeric_cols; set_solver).
    rewrite complete_spec. unfold required_numeric.
    rewrite <- (coercion_numeric parse_datetime parse_numeric datetime_of_number
                  (columns df) "price" _ Hpn Hp).
    rewrite <- (coercion_numeric parse_datetime parse_numeric datetime_of_number
                  (columns df) "bidCount" _ Hbn Hb).
    rewrite <- !cell_clean_row. split.
    - intros Hall. split; apply Hall; set_solver.
    - intros [H1 H2] c Hc.
      apply elem_of_cons in Hc as [ -> | Hc ]; [ done | ].
      by apply list_elem_of_singleton in Hc as ->. }
  assert (Hkept : ∀ r, kept r ↔ complete required r ∧
                        complete required_numeric (clean_row (columns df) r)).
  { intros r. unfold kept. rewrite Hnum, !andb_True. unfold required. tauto. }
  split; [ | split ].
  - intros r Hr [Hreq Hcn]%Hkept. exists (clean_row (columns df) r).
    split; [ | intros c; apply cell_clean_row ].
    apply elem_of_cleaned_rows. eauto.
  - intros r' (r & -> & Hr & Hreq & Hcn)%elem_of_cleaned_rows.
    exists r. split; [ done | ]. split; [ by apply Hkept | ].
    intros c. apply cell_clean_row.
  - unfold cleaned_rows. rewrite filter_map, length_map.
    rewrite list_filter_filter. f_equal.
    apply filter_ext_in. intros r _. rewrite Hkept. tauto.
Qed.

(** X3.  Whenever [clean_data] returns, every numeric column of its list
    that the frame has holds, in every row, a number or the undefined marker
    [NaN], and every date column of its list that the frame has holds a
    timestamp or [NaT]: no text is left under any coerced label. *)
Theorem clean_data_coerced_columns df df' r c :
  clean_data df = Ok df' →
  r ∈ rows df' →
  c ∈ columns df' →
  (c ∈ numeric_cols → num_or_na (cell r c)) ∧
  (c ∈ date_cols → date_or_na (cell r c)).
Proof.
  intros [Hcols ->]%clean_data_inv Hr Hc. cbn [rows columns] in *.
  apply elem_of_cleaned_rows in Hr as (r0 & -> & _).
  rewrite cell_clean_row. split; intros Hlist.
  - rewrite coercion_numeric by done.
    by destruct (to_numeric_kind parse_numeric (cell r0 c)) as [ -> | [x ->] ].
  - rewrite coercion_date by done.
    by destruct (to_datetime_kind parse_datetime datetime_of_number (cell r0 c))
      as [ -> | [t ->] ].
Qed.

(** A run of [clean_data] on a result of [clean_data]. *)
Lemma clean_data_again df :
  Forall (λ c, c ∈ columns df) (required ++ required_numeric)%list →
  clean_data (DataFrame (columns df) (cleaned_rows df))
  = Ok (DataFrame (columns df)
          (filter (λ r, complete ["startPrice"; "registeredDate"] r)
                  (cleaned_rows df))).
Proof.
  intros Hcols.
  assert (Hfix : ∀ r, r ∈ cleaned_rows df → clean_row (columns df) r = r).
  { intros r (r0 & -> & _)%elem_of_cleaned_rows. apply clean_row_idemp. }
  assert (Hnum : ∀ r, r ∈ cleaned_rows df → complete required_numeric r).
  { intros r (r0 & -> & _ & _ & ?)%elem_of_cleaned_rows. done. }
  rewrite clean_data_Ok by done. cbn [columns]. do 2 f_equal.
  unfold cleaned_rows at 1. cbn [columns rows].
  rewrite map_fixed
    by (intros r [_ ?]%list_elem_of_filter; by apply Hfix).
  rewrite filter_all
    by (intros r [_ ?]%list_elem_of_filter; by apply Hnum).
  apply filter_ext_in. intros r Hr%Hnum.
  rewrite !complete_spec in *. unfold required, required_numeric in *.
  split; intros Hc c Hin; set_solver.
Qed.

(** X4.  Two runs of [clean_data] reach a fixed point: the result of the
    second run is returned unchanged by every further run. *)
Theorem clean_data_settles df df1 df2 :
  clean_data df = Ok df1 →
  clean_data df1 = Ok df2 →
  clean_data df2 = Ok df2.
Proof.
  intros [Hcols ->]%clean_data_inv.
  rewrite clean_data_again by done. intros [= <-].
  set (rs := filter _ (cleaned_rows df)).
  assert (Hrs : ∀ r, r ∈ rs →
            r ∈ cleaned_rows df ∧ complete ["startPrice"; "registeredDate"] r).
  { intros r [? ?]%list_elem_of_filter. done. }
  rewrite clean_data_Ok by done. cbn [columns]. do 2 f_equal.
  unfold cleaned_rows. cbn [columns rows].
  assert (Hreq : ∀ r, r ∈ rs → complete required r).
  { intros r [(r0 & -> & _ & _ & Hn)%elem_of_cleaned_rows Hc]%Hrs.
    rewrite !complete_spec in *. unfold required, required_numeric in *.
    intros c Hin. set_solver. }
  rewrite (filter_all (λ r, complete required r)) by done.
  rewrite map_fixed.
  2: { intros r [(r0 & -> & _)%elem_of_cleaned_rows _]%Hrs.
       apply clean_row_idemp. }
  apply filter_all.
  intros r [(r0 & -> & _ & _ & Hn)%elem_of_cleaned_rows _]%Hrs. done.
Qed.

End CleanBehaviour.

(** ** [feature_engineering] *)

Lemma traverse_Raise {A B} (f : A → result B) (l : list A) e :
  (∀ a e', a ∈ l → f a = Raise e' → e' = e) →
  (∃ a e', a ∈ l ∧ f a = Raise e') →
  traverse f l = Raise e.
Proof.
  induction l as [ | a l IH ]; intros Honly (a0 & e0 & Hin & Ha0).
  { by apply elem_of_nil in Hin. }
  cbn [traverse]. destruct (f a) as [ b | e' ] eqn:Ha.
  - rewrite bind_Ok. rewrite IH; [ done | | ].
    + intros a1 e1 H1. apply Honly. by apply list_elem_of_further.
    + apply elem_of_cons in Hin as [ -> | Hin ]; [ congruence | eauto ].
  - by rewrite (Honly a e' (list_elem_of_here _ _) Ha).
Qed.

Lemma try_assign_Raise c f df e :
  (∀ r e', r ∈ rows df → f r = Raise e' → e' = e) →
  (∃ r e', r ∈ rows df ∧ f r = Raise e') →
  try_assign c f df = Raise e.
Proof.
  intros Honly (r & e' & Hr & Hf). unfold try_assign.
  rewrite (traverse_Raise _ _ e); [ done | | ].
  - intros a e1 Ha. destruct (f a) as [ v | e2 ] eqn:Hfa; [ done | ].
    intros [= <-]. by eapply Honly.
  - exists r, e'. split; [ done | ]. by rewrite Hf.
Qed.

Lemma lookup_derive P `{!Decision P} c g (r : row) c' :
  derive P c g r !! c' = if decide (P ∧ c = c') then Some (g r) else r !! c'.
Proof.
  unfold derive. destruct (decide P); [ rewrite lookup_insert | ]; decide_all.
Qed.

Lemma lookup_derived_row y cols (r : row) c :
  derived_row y cols r !! c
  = if decide (("startDate" ∈ cols ∧ "endDate" ∈ cols)
               ∧ "auctionDurationDays" = c)
    then Some (days_between (cell r "endDate") (cell r "startDate"))
    else if decide (("price" ∈ cols ∧ "startPrice" ∈ cols) ∧ "priceDiff" = c)
    then Some (difference_of (cell r "price") (cell r "startPrice"))
    else if decide ("registeredDate" ∈ cols ∧ "domainAge" = c)
    then Some (age_of y (cell r "registeredDate"))
    else if decide ("url" ∈ cols ∧ "domainLength" = c)
    then Some (domain_length (cell r "url"))
    else r !! c.
Proof.
  unfold derived_row. rewrite !lookup_derive, !cell_derive.
  repeat (rewrite (decide_False (P := _ ∧ _ = "endDate")) by (by intros [_ ?])).
  repeat (rewrite (decide_False (P := _ ∧ _ = "startDate")) by (by intros [_ ?])).
  repeat (rewrite (decide_False (P := _ ∧ _ = "price")) by (by intros [_ ?])).
  repeat (rewrite (decide_False (P := _ ∧ _ = "startPrice")) by (by intros [_ ?])).
  repeat (rewrite (decide_False (P := _ ∧ _ = "registeredDate"))
            by (by intros [_ ?])).
  done.
Qed.

Lemma cell_derived_row y cols (r : row) c :
  c ∉ ["domainLength"; "domainAge"; "priceDiff"; "auctionDurationDays"] →
  cell (derived_row y cols r) c = cell r c.
Proof.
  intros Hc. unfold cell. rewrite lookup_derived_row.
  repeat (rewrite decide_False; [ | intros [_ <-]; apply Hc; set_solver ]).
  done.
Qed.

Lemma elem_of_derived_columns cols c :
  c ∈ derived_columns cols ↔ c ∈ cols ∨ derived cols c.
Proof. unfold derived_columns, derived. rewrite !elem_of_label. tauto. Qed.

Lemma derived_columns_source cols c :
  c ∉ ["domainLength"; "domainAge"; "priceDiff"; "auctionDurationDays"] →
  c ∈ derived_columns cols ↔ c ∈ cols.
Proof.
  intros Hc. rewrite elem_of_derived_columns. unfold derived.
  split; [ | tauto ]. intros [ ? | Hd ]; [ done | ].
  exfalso. apply Hc. set_solver.
Qed.



Lemma cell_derived_row_domainLength y cols (r : row) :
  "url" ∈ cols →
  cell (derived_row y cols r) "domainLength" = domain_length (cell r "url").
Proof.
  intros Hr. unfold cell at 1. rewrite lookup_derived_row.
  do 3 rewrite decide_False by (by intros [_ ?]).
  by rewrite decide_True.
Qed.

Lemma stage_length cols rs :
  (if decide ("url" ∈ cols)
   then Ok (assign "domainLength" (λ r, domain_length (cell r "url"))
              (DataFrame cols rs))
   else Ok (DataFrame cols rs))
  = Ok (DataFrame (label ("url" ∈ cols) "domainLength" cols)
          (map (derive ("url" ∈ cols) "domainLength"
                  (λ r, domain_length (cell r "url"))) rs)).
Proof.
  case_decide.
  - f_equal. by apply assign_derive.
  - f_equal. by apply skip_derive.
Qed.

Lemma stage_raise (P' : Prop) `{!Decision P'} c f cols rs e :
  P' →
  (∀ r e', r ∈ rs → f r = Raise e' → e' = e) →
  (∃ r e', r ∈ rs ∧ f r = Raise e') →
  (if decide P' then try_assign c f (DataFrame cols rs)
   else Ok (DataFrame cols rs))
  = Raise e.
Proof.
  intros HP Honly Hsome. rewrite decide_True by done.
  by apply try_assign_Raise.
Qed.

Lemma domain_age_untyped y v :
  match v with Str _ | Num _ => False | _ => True end →
  domain_age y v = Ok (age_of y v).
Proof. by destruct v. Qed.

Lemma label_present (P : Prop) `{!Decision P} c cols :
  (P → c ∈ cols) → label P c cols = cols.
Proof.
  intros Hc. unfold label. case_decide; [ | done ].
  apply add_label_present. auto.
Qed.

Section FeatureBehaviour.

Variable current_year : Z.

Local Abbreviation derived_row := (derived_row current_year).
Local Abbreviation feature_engineering := (feature_engineering current_year).

(** X5.  [feature_engineering] raises AttributeError on every frame whose
    [registeredDate] column holds, in some row, a text or a number: the
    value has no attribute [year].  (A frame as [read_csv] loads it holds
    text there.) *)
Theorem feature_engineering_attribute_error df r :
  "registeredDate" ∈ columns df →
  r ∈ rows df →
  (∃ s, cell r "registeredDate" = Str s) ∨
  (∃ x, cell r "registeredDate" = Num x) →
  feature_engineering df = Raise AttributeError.
Proof.
  destruct df as [cols rs]. cbn [columns rows]. intros Hcol Hr Hcell.
  unfold feature_engineering. cbn [columns].
  rewrite stage_length, bind_Ok. cbn [columns].
  rewrite (stage_raise _ _ _ _ _ AttributeError); [ done | | | ].
  - rewrite elem_of_label. by right.
  - intros r' e' _. unfold domain_age.
    destruct (cell r' "registeredDate"); intros [= <-]; done.
  - exists (derive ("url" ∈ cols) "domainLength"
              (λ r, domain_length (cell r "url")) r), AttributeError.
    split; [ apply elem_of_list_map; eauto | ].
    rewrite cell_derive. rewrite decide_False by (by intros [_ ?]).
    by destruct Hcell as [ [s ->] | [x ->] ].
Qed.

(** X6.  When the [registeredDate] column is absent or holds no text and no
    number, [feature_engineering] raises TypeError on every frame with the
    columns [price] and [startPrice] that has a row with a text under one of
    the two labels and a value under the other: the subtraction is not
    defined on text. *)
Theorem feature_engineering_type_error df r :
  ("registeredDate" ∈ columns df →
   Forall (λ r, match cell r "registeredDate" with
                | Str _ | Num _ => False
                | _ => True
                end) (rows df)) →
  "price" ∈ columns df →
  "startPrice" ∈ columns df →
  r ∈ rows df →
  (∃ s, cell r "price" = Str s) ∨ (∃ s, cell r "startPrice" = Str s) →
  notna (cell r "price") →
  notna (cell r "startPrice") →
  feature_engineering df = Raise TypeError.
Proof.
  destruct df as [cols rs]. cbn [columns rows].
  intros Hdate Hprice Hstart Hr Hcell Hnp Hns.
  unfold feature_engineering. cbn [columns].
  rewrite stage_length, bind_Ok. cbn [columns].
  rewrite (stage_assign _ ("registeredDate" ∈ cols) _ _
             (λ r, age_of current_year (cell r "registeredDate"))).
  2: { rewrite ?elem_of_label; intuition discriminate. }
  2: { intros HP r' (r0 & -> & Hr0)%elem_of_list_map.
       apply domain_age_untyped. rewrite cell_derive.
       rewrite decide_False by (by intros [_ ?]).
       specialize (Hdate HP). rewrite Forall_forall in Hdate.
       by apply Hdate. }
  rewrite bind_Ok. cbn [columns].
  rewrite (stage_raise _ _ _ _ _ TypeError); [ done | | | ].
  - rewrite !elem_of_label. tauto.
  - intros r' e' _. unfold price_diff.
    destruct (cell r' "price"), (cell r' "startPrice"); intros [= <-]; done.
  - eexists _, TypeError. split.
    + apply elem_of_list_map. eexists. split; [ done | ].
      apply elem_of_list_map. eexists. split; [ done | exact Hr ].
    + rewrite !cell_derive.
      repeat (rewrite decide_False by (by intros [_ ?])).
      destruct Hcell as [ [s Hs] | [s Hs] ]; rewrite Hs in *.
      * by destruct (cell r "startPrice").
      * by destruct (cell r "price").
Qed.

(** X7.  [feature_engineering] is idempotent on typed frames: run on its own
    result it returns that result, with no column added and no cell
    changed. *)
Theorem feature_engineering_idempotent df df1 :
  typed df →
  feature_engineering df = Ok df1 →
  feature_engineering df1 = Ok df1.
Proof.
  intros Hty. rewrite feature_engineering_typed by done. intros [= <-].
  set (cols := columns df).
  assert (Hsrc : ∀ c,
            c ∉ ["domainLength"; "domainAge"; "priceDiff";
                 "auctionDurationDays"] →
            c ∈ derived_columns cols ↔ c ∈ cols)
    by (intros c; apply derived_columns_source).
  assert (Hurl := Hsrc "url" ltac:(set_solver)).
  assert (Hreg := Hsrc "registeredDate" ltac:(set_solver)).
  assert (Hprice := Hsrc "price" ltac:(set_solver)).
  assert (Hstart := Hsrc "startPrice" ltac:(set_solver)).
  assert (Hsd := Hsrc "startDate" ltac:(set_solver)).
  assert (Hed := Hsrc "endDate" ltac:(set_solver)).
  assert (Hcell : ∀ r c,
            c ∉ ["domainLength"; "domainAge"; "priceDiff";
                 "auctionDurationDays"] →
            cell (derived_row cols r) c = cell r c)
    by (intros r c; apply cell_derived_row).
  rewrite feature_engineering_typed.
  2: { unfold typed in *. cbn [columns rows].
       rewrite Forall_forall in *.
       intros r' (r & -> & Hr)%elem_of_list_map.
       specialize (Hty r Hr). unfold typed_row in *.
       rewrite !Hcell by set_solver. fold cols in Hty. tauto. }
  cbn [columns rows]. f_equal. f_equal.
  - unfold derived_columns at 1.
    rewrite (label_present _ "domainLength")
      by (rewrite ?Hurl, ?Hreg, ?Hprice, ?Hstart, ?Hsd, ?Hed,
            elem_of_derived_columns; unfold derived; tauto).
    rewrite (label_present _ "domainAge")
      by (rewrite ?Hurl, ?Hreg, ?Hprice, ?Hstart, ?Hsd, ?Hed,
            elem_of_derived_columns; unfold derived; tauto).
    rewrite (label_present _ "priceDiff")
      by (rewrite ?Hurl, ?Hreg, ?Hprice, ?Hstart, ?Hsd, ?Hed,
            elem_of_derived_columns; unfold derived; tauto).
    rewrite (label_present _ "auctionDurationDays")
      by (rewrite ?Hurl, ?Hreg, ?Hprice, ?Hstart, ?Hsd, ?Hed,
            elem_of_derived_columns; unfold derived; tauto).
    done.
  - rewrite map_map. apply map_ext. intros r. apply map_eq. intros c.
    rewrite (lookup_derived_row _ (derived_columns cols)).
    rewrite !Hcell by set_solver.
    rewrite (lookup_derived_row _ cols r c).
    repeat match goal with
           | |- context [decide ?P] => destruct (decide P)
           end; try done; tauto.
Qed.

End FeatureBehaviour.

(** ** [clean_data], then [feature_engineering] *)


Section CleanThenFeature.

Variable parse_datetime : string → option timestamp.
Variable parse_numeric : string → option Q.
Variable datetime_of_number : Q → option timestamp.
Variable current_year : Z.

Local Abbreviation clean_data :=
  (clean_data parse_datetime parse_numeric datetime_of_number).
Local Abbreviation cleaned_rows :=
  (cleaned_rows parse_datetime parse_numeric datetime_of_number).
Local Abbreviation feature_engineering := (feature_engineering current_year).


Lemma cleaned_rows_num_or_na df r c :
  c ∈ numeric_cols →
  c ∈ columns df →
  r ∈ cleaned_rows df →
  num_or_na (cell r c).
Proof.
  intros Hc Hcol (r0 & -> & _)%elem_of_cleaned_rows.
  rewrite cell_clean_row, coercion_numeric by done.
  by destruct (to_numeric_kind parse_numeric (cell r0 c)) as [ -> | [x ->] ].
Qed.


End CleanThenFeature.

(** ** [suggest_domains] *)

Lemma bind_Raise_inv {A B} (m : result A) (k : A → result B) e :
  (m ≫= k) = Raise e → m = Raise e ∨ ∃ a, m = Ok a ∧ k a = Raise e.
Proof. destruct m; [ eauto | intros [= <-]; by left ]. Qed.

Lemma traverse_Raise_inv {A B} (f : A → result B) (l : list A) e :
  traverse f l = Raise e → ∃ a, a ∈ l ∧ f a = Raise e.
Proof.
  induction l as [ | a l IH ]; cbn [traverse]; [ done | ].
  intros [ Ha | (b & Hb & [ Hl | (bs & _ & ?) ]%bind_Raise_inv) ]%bind_Raise_inv.
  - exists a. split; [ apply list_elem_of_here | done ].
  - destruct (IH Hl) as (a' & ? & ?). exists a'.
    split; [ by apply list_elem_of_further | done ].
  - done.
Qed.

Lemma filter_sublist_mono {A} (P Q : A → Prop)
    `{!∀ x, Decision (P x), !∀ x, Decision (Q x)} (l : list A) :
  (∀ x, P x → Q x) → sublist (filter P l) (filter Q l).
Proof.
  intros HPQ. induction l as [ | a l IH ]; [ done | ].
  rewrite !filter_cons. destruct (decide (P a)) as [ HP | HP ].
  - rewrite decide_True by auto. by constructor.
  - case_decide; [ by constructor | done ].
Qed.

Section SuggestBehaviour.

Context `{Sorter}.

(** X9.  On a frame with the columns [price] and [ahrefsDomainRating],
    [suggest_domains] prints nothing; it raises TypeError when some row
    holds a text or a timestamp under either label; and when it raises, the
    exception is a TypeError and some row holds, under one of the two
    labels, something other than a number or the undefined marker [NaN]. *)
Theorem suggest_domains_type_error df p q :
  "price" ∈ columns df →
  "ahrefsDomainRating" ∈ columns df →
  printed (suggest_domains df p q) = [] ∧
  (∀ r c, r ∈ rows df →
     c ∈ ["price"; "ahrefsDomainRating"] →
     (∃ s, cell r c = Str s) ∨ (∃ t, cell r c = Date t) →
     returned (suggest_domains df p q) = Raise TypeError) ∧
  (∀ e, returned (suggest_domains df p q) = Raise e →
     e = TypeError ∧
     ∃ r, r ∈ rows df ∧
          (¬ num_or_na (cell r "price") ∨
           ¬ num_or_na (cell r "ahrefsDomainRating"))).
Proof.
  intros Hprice Hrating.
  assert (Hcols : first_missing ["price"; "ahrefsDomainRating"] df = None).
  { apply first_missing_None. by repeat constructor. }
  assert (Hraise : ∀ e, returned (suggest_domains df p q) = Raise e →
            e = TypeError ∧
            ∃ r, r ∈ rows df ∧
                 (¬ num_or_na (cell r "price") ∨
                  ¬ num_or_na (cell r "ahrefsDomainRating"))).
  { intros e. unfold suggest_domains. rewrite Hcols. cbn [returned].
    intros [ Hmask | (mask & Hmask & Hsort) ]%bind_Raise_inv.
    - unfold suggest_mask in Hmask.
      apply bind_Raise_inv in Hmask
        as [ (r & Hr & Hc)%traverse_Raise_inv
           | (cheap & _ & [ (r & Hr & Hc)%traverse_Raise_inv
                          | (rated & _ & ?) ]%bind_Raise_inv) ];
        [ | | done ].
      + unfold lt_cell in Hc.
        destruct (cell r "price") eqn:Hcell; simplify_eq;
          (split; [ done | ]); exists r; rewrite Hcell; split; auto.
      + unfold gt_cell in Hc.
        destruct (cell r "ahrefsDomainRating") eqn:Hcell; simplify_eq;
          (split; [ done | ]); exists r; rewrite Hcell; split; auto.
    - apply suggest_mask_inv in Hmask.
      rewrite (select_filter _ _ _ Hmask) in Hsort.
      rewrite sort_values_desc_numeric in Hsort; [ done | ].
      intros r [(x & y & _ & Hy & _)%selected_spec _]%list_elem_of_filter.
      eauto. }
  split; [ | split; [ | done ] ].
  - unfold suggest_domains. by rewrite Hcols.
  - intros r c Hr Hc Hcell.
    destruct (returned (suggest_domains df p q)) as [ R | e ] eqn:Hret.
    + exfalso. unfold suggest_domains in Hret. rewrite Hcols in Hret.
      cbn [returned] in Hret.
      apply bind_Ok_inv in Hret as (mask & Hmask & _).
      unfold suggest_mask in Hmask.
      apply bind_Ok_inv in Hmask
        as (cheap & Hcheap%traverse_Ok_inv
            & (rated & Hrated%traverse_Ok_inv & _)%bind_Ok_inv).
      apply list_elem_of_lookup_1 in Hr as [i Hi].
      apply elem_of_cons in Hc as [ -> | ->%list_elem_of_singleton ].
      * destruct (Forall2_lookup_l _ _ _ _ _ Hcheap Hi) as (b & _ & Hb).
        revert Hb. unfold lt_cell.
        by destruct Hcell as [ [s ->] | [t ->] ].
      * destruct (Forall2_lookup_l _ _ _ _ _ Hrated Hi) as (b & _ & Hb).
        revert Hb. unfold gt_cell.
        by destruct Hcell as [ [s ->] | [t ->] ].
    + by destruct (Hraise e eq_refl) as [-> _].
Qed.

(** X10.  [suggest_domains] is monotone in its thresholds: with a price
    threshold no smaller and a rating threshold no larger, every row
    returned before is returned again, as many times. *)
Theorem suggest_domains_monotone df p q p' q' R R' :
  (p <= p')%Q →
  (q' <= q)%Q →
  "price" ∈ columns df →
  "ahrefsDomainRating" ∈ columns df →
  returned (suggest_domains df p q) = Ok R →
  returned (suggest_domains df p' q') = Ok R' →
  rows R ⊆+ rows R'.
Proof.
  intros Hp Hq Hprice Hrating.
  assert (Hcols : first_missing ["price"; "ahrefsDomainRating"] df = None).
  { apply first_missing_None. by repeat constructor. }
  intros [ [? _] | [_ ->] ]%suggest_domains_returned; [ done | ].
  intros [ [? _] | [_ ->] ]%suggest_domains_returned; [ done | ].
  cbn [rows]. rewrite !sorted_desc_perm.
  apply sublist_submseteq, filter_sublist_mono.
  intros r (x & y & Hx & Hy & Hlt & Hgt)%selected_spec.
  apply selected_spec. exists x, y.
  split; [ done | ]. split; [ done | ]. split.
  - by eapply Qlt_le_trans.
  - by eapply Qle_lt_trans.
Qed.

End SuggestBehaviour.

(** ** Main execution *)

Lemma select_columns_Ok labels df :
  Forall (λ c, c ∈ columns df) labels →
  select_columns labels df
  = Ok (DataFrame labels
          (map (λ r : row, filter (λ kv, kv.1 ∈ labels) r) (rows df))).
Proof.
  intros Hall%filter_absent_nil. unfold select_columns. by rewrite Hall.
Qed.

Lemma select_columns_Raise labels df c missing :
  filter (λ c, c ∉ columns df) labels = c :: missing →
  select_columns labels df = Raise (KeyError (c :: missing)).
Proof. unfold select_columns. by intros ->. Qed.

Lemma cell_restrict (labels : list string) (r : row) c :
  c ∈ labels → cell (filter (λ kv, kv.1 ∈ labels) r) c = cell r c.
Proof.
  intros Hc. unfold cell. rewrite map_lookup_filter.
  destruct (r !! c) as [ v | ]; [ | done ]. simpl.
  by rewrite option_guard_True.
Qed.

Lemma run_bind_Ok {A B} (a : A) (k : A → run B) :
  (of_result (Ok a) ≫= k) = k a.
Proof. unfold mbind, run_bind. simpl. by destruct (k a). Qed.

Lemma run_bind_Raise {A B} e (k : A → run B) :
  (of_result (Raise e) ≫= k) = Run [] (Raise e).
Proof. done. Qed.

Lemma run_bind_Run {A B} out (a : A) (k : A → run B) :
  (Run out (Ok a) ≫= k) = Run (out ++ output (k a)) (outcome_of (k a)).
Proof. done. Qed.

Lemma StronglySorted_map {A B} (R1 : relation A) (R2 : relation B)
    (f : A → B) (l : list A) :
  (∀ x y, R1 x y → R2 (f x) (f y)) →
  StronglySorted R1 l → StronglySorted R2 (map f l).
Proof.
  intros Hf. induction 1 as [ | a l _ IH Ha ]; simpl; constructor; [ done | ].
  rewrite Forall_forall in Ha. apply Forall_forall.
  intros b (x & -> & Hx)%elem_of_list_map. by apply Hf, Ha.
Qed.

Lemma StronglySorted_take {A} (R : relation A) (n : nat) (l : list A) :
  StronglySorted R l → StronglySorted R (take n l).
Proof.
  intros Hl. rewrite <- (take_drop n l) in Hl.
  by apply StronglySorted_app_1_l in Hl.
Qed.

Lemma selected_derived_row y cols p q r :
  selected p q (derived_row y cols r) = selected p q r.
Proof.
  unfold selected. by rewrite !cell_derived_row by set_solver.
Qed.

Section SuggestNumeric.

Context `{Sorter}.

Lemma suggest_domains_numeric df p q :
  "price" ∈ columns df →
  "ahrefsDomainRating" ∈ columns df →
  Forall (λ r, num_or_na (cell r "price") ∧
               num_or_na (cell r "ahrefsDomainRating")) (rows df) →
  suggest_domains df p q
  = Outcome [] (Ok (DataFrame (columns df)
                      (sorted_desc "ahrefsDomainRating"
                         (filter (λ r, selected p q r) (rows df))))).
Proof.
  intros Hprice Hrating [mask Hmask]%(suggest_mask_Ok df p q).
  unfold suggest_domains.
  assert (first_missing ["price"; "ahrefsDomainRating"] df = None) as ->.
  { apply first_missing_None. by repeat constructor. }
  rewrite Hmask, bind_Ok. apply suggest_mask_inv in Hmask.
  rewrite (select_filter _ _ _ Hmask).
  rewrite sort_values_desc_numeric; [ done | ].
  intros r [(x & y & _ & Hy & _)%selected_spec _]%list_elem_of_filter.
  eauto.
Qed.

End SuggestNumeric.

Section MainFacts.

Context `{Sorter}.

Variable parse_datetime : string → option timestamp.
Variable parse_numeric : string → option Q.
Variable datetime_of_number : Q → option timestamp.
Variable current_year : Z.
Variable basic_summary : table → run unit.

Local Abbreviation clean_data :=
  (clean_data parse_datetime parse_numeric datetime_of_number).
Local Abbreviation cleaned_rows :=
  (cleaned_rows parse_datetime parse_numeric datetime_of_number).
Local Abbreviation feature_engineering := (feature_engineering current_year).
Local Abbreviation derived_row := (derived_row current_year).
Local Abbreviation main :=
  (main parse_datetime parse_numeric datetime_of_number current_year
        basic_summary).

(** The run of [main] once [clean_data] and [basic_summary] return. *)
Lemma main_run loaded cleaned engineered out :
  clean_data loaded = Ok cleaned →
  feature_engineering cleaned = Ok engineered →
  basic_summary engineered = Run out (Ok ()) →
  main loaded
  = Run (out ++ map Printed (printed (main_suggested engineered)) ++
         match returned (main_suggested engineered) with
         | Ok suggested =>
             Printed suggested_header ::
             match select_columns shown_columns suggested with
             | Ok shown => [Shown (df_head 20 shown)]
             | Raise _ => []
             end
         | Raise _ => []
         end)%list
        (suggested ← returned (main_suggested engineered);
         shown ← select_columns shown_columns suggested;
         Ok ()).
Proof.
  intros Hclean Hfeature Hsummary. unfold main.
  rewrite Hclean, run_bind_Ok, Hfeature, run_bind_Ok, Hsummary, run_bind_Run.
  unfold suggesting.
  destruct (returned (main_suggested engineered)) as [ suggested | e ].
  - rewrite run_bind_Run. unfold print_line. rewrite run_bind_Run, bind_Ok.
    destruct (select_columns shown_columns suggested) as [ shown | e ];
      cbn [mbind run_bind result_bind output outcome_of of_result print_frame
           app]; done.
  - cbn [mbind run_bind result_bind output outcome_of]. by rewrite app_nil_r.
Qed.

(** What [clean_data] and [feature_engineering] hand to the later steps. *)
Lemma engineered_frame loaded cleaned engineered :
  clean_data loaded = Ok cleaned →
  feature_engineering cleaned = Ok engineered →
  Forall (λ c, c ∈ columns loaded) (required ++ required_numeric)%list ∧
  cleaned = DataFrame (columns loaded) (cleaned_rows loaded) ∧
  engineered = DataFrame (derived_columns (columns loaded))
                 (map (derived_row (columns loaded)) (cleaned_rows loaded)).
Proof.
  intros Hclean. pose proof (clean_data_typed _ _ _ _ _ Hclean) as Hty.
  apply clean_data_inv in Hclean as [Hcols ->].
  rewrite feature_engineering_typed by done. cbn [columns rows].
  by intros [= <-].
Qed.

Lemma engineered_suggested loaded :
  Forall (λ c, c ∈ columns loaded) (required ++ required_numeric)%list →
  "ahrefsDomainRating" ∈ columns loaded →
  main_suggested
    (DataFrame (derived_columns (columns loaded))
       (map (derived_row (columns loaded)) (cleaned_rows loaded)))
  = Outcome []
      (Ok (DataFrame (derived_columns (columns loaded))
             (sorted_desc "ahrefsDomainRating"
                (map (derived_row (columns loaded))
                   (filter (λ r, selected 500 20 r) (cleaned_rows loaded)))))).
Proof.
  intros Hcols Hrating.
  assert (Hprice : "price" ∈ columns loaded).
  { rewrite Forall_forall in Hcols. apply Hcols. unfold required. set_solver. }
  unfold main_suggested, call_suggest_domains. cbn [default].
  rewrite suggest_domains_numeric; cbn [columns rows].
  - do 4 f_equal. rewrite filter_map. f_equal.
    apply filter_ext_in. intros r _. by rewrite selected_derived_row.
  - apply elem_of_derived_columns. by left.
  - apply elem_of_derived_columns. by left.
  - apply Forall_forall. intros r' (r & -> & Hr)%elem_of_list_map.
    rewrite !cell_derived_row by set_solver.
    split; eapply cleaned_rows_num_or_na; try done;
      unfold numeric_cols; set_solver.
Qed.

(** X11.  When the loaded frame has the four columns [clean_data] requires
    and the columns [url] and [ahrefsDomainRating], and [basic_summary]
    returns, [main] returns: after the summary it prints the heading and
    one frame, with the columns [url], [price], [ahrefsDomainRating],
    [domainLength], [domainAge].  That frame has min(20, n) rows, for n the
    cleaned rows with a price below 500 and a rating above 20; each of its
    rows is such a row, and they are in non-increasing order of rating. *)
Theorem main_shows_suggestions loaded cleaned engineered out :
  clean_data loaded = Ok cleaned →
  feature_engineering cleaned = Ok engineered →
  basic_summary engineered = Run out (Ok ()) →
  "url" ∈ columns loaded →
  "ahrefsDomainRating" ∈ columns loaded →
  ∃ T, main loaded
       = Run (out ++ [Printed suggested_header; Shown T])%list (Ok ()) ∧
    columns T = shown_columns ∧
    length (rows T)
    = (20 `min` length (filter (λ r, selected 500 20 r) (rows cleaned)))%nat ∧
    StronglySorted (descending "ahrefsDomainRating") (rows T) ∧
    ∀ r, r ∈ rows T →
      ∃ x y, cell r "price" = Num x ∧ cell r "ahrefsDomainRating" = Num y ∧
             (x < 500)%Q ∧ (20 < y)%Q.
Proof.
  intros Hclean Hfeature Hsummary Hurl Hrating.
  rewrite (main_run _ _ _ _ Hclean Hfeature Hsummary).
  destruct (engineered_frame _ _ _ Hclean Hfeature) as (Hcols & -> & ->).
  rewrite engineered_suggested by done. cbn [printed returned map rows].
  assert (Hin : ∀ c, c ∈ (required ++ required_numeric)%list →
                     c ∈ columns loaded) by (by apply Forall_forall).
  rewrite bind_Ok, select_columns_Ok.
  2: { cbn [columns]. unfold shown_columns. repeat constructor;
         apply elem_of_derived_columns; unfold derived;
         try (left; done); try (right; tauto);
         try (left; apply Hin; unfold required; set_solver);
         right; right; left; split; [ done | ];
         apply Hin; unfold required; set_solver. }
  cbn [rows mbind result_bind app].
  set (kept := filter _ (cleaned_rows loaded)).
  set (S := sorted_desc _ _).
  assert (Hsel : ∀ r, r ∈ S →
            ∃ x y, cell r "price" = Num x ∧
                   cell r "ahrefsDomainRating" = Num y ∧
                   (x < 500)%Q ∧ (20 < y)%Q).
  { intros r. unfold S. rewrite sorted_desc_perm.
    intros (r0 & -> & [Hr0 _]%list_elem_of_filter)%elem_of_list_map.
    rewrite !cell_derived_row by set_solver. by apply selected_spec. }
  eexists. split; [ reflexivity | ]. unfold df_head. cbn [columns rows].
  split; [ done | ]. split; [ | split ].
  - rewrite length_take, length_map. unfold S.
    by rewrite sorted_desc_perm, length_map.
  - apply StronglySorted_take.
    apply (StronglySorted_map (descending "ahrefsDomainRating")).
    + intros a b (x & y & Ha & Hb & Hle). exists x, y.
      rewrite !cell_restrict by (unfold shown_columns; set_solver). done.
    + apply sorted_desc_sorted.
      intros r (r0 & -> & [Hr0 _]%list_elem_of_filter)%elem_of_list_map.
      apply selected_spec in Hr0 as (x & y & _ & Hy & _).
      rewrite cell_derived_row by set_solver. eauto.
  - intros r Hr%(subseteq_take 20).
    apply elem_of_list_map in Hr as (r0 & -> & Hr0).
    rewrite !cell_restrict by (unfold shown_columns; set_solver). auto.
Qed.

(** X12.  When the loaded frame has the four columns [clean_data] requires
    but no column [ahrefsDomainRating], and [basic_summary] returns, [main]
    raises: after the summary it prints the line of [suggest_domains] that
    names the missing column, then the heading, and the selection of the
    five columns from the empty frame raises a KeyError that names all
    five. *)
Theorem main_without_rating loaded cleaned engineered out :
  clean_data loaded = Ok cleaned →
  feature_engineering cleaned = Ok engineered →
  basic_summary engineered = Run out (Ok ()) →
  "ahrefsDomainRating" ∉ columns loaded →
  main loaded
  = Run (out ++ [Printed "Column ahrefsDomainRating not found in DataFrame.";
                 Printed suggested_header])%list
        (Raise (KeyError ["url"; "price"; "ahrefsDomainRating";
                          "domainLength"; "domainAge"])).
Proof.
  intros Hclean Hfeature Hsummary Hrating.
  rewrite (main_run _ _ _ _ Hclean Hfeature Hsummary).
  destruct (engineered_frame _ _ _ Hclean Hfeature) as (Hcols & -> & ->).
  assert (Hprice : "price" ∈ columns loaded).
  { rewrite Forall_forall in Hcols. apply Hcols. unfold required. set_solver. }
  unfold main_suggested, call_suggest_domains, suggest_domains.
  cbn [first_missing columns].
  rewrite decide_True by (apply elem_of_derived_columns; by left).
  rewrite decide_False by (by rewrite derived_columns_source by set_solver).
  cbn [printed returned map]. rewrite bind_Ok. done.
Qed.

(** X13.  When the loaded frame has the four columns [clean_data] requires
    and [ahrefsDomainRating] but no column [url], and [basic_summary]
    returns, [main] raises after it has printed the summary and the
    heading: the selection of the five columns raises a KeyError that names
    [url] and, unless the loaded frame has such a column, [domainLength]. *)
Theorem main_without_url loaded cleaned engineered out :
  clean_data loaded = Ok cleaned →
  feature_engineering cleaned = Ok engineered →
  basic_summary engineered = Run out (Ok ()) →
  "ahrefsDomainRating" ∈ columns loaded →
  "url" ∉ columns loaded →
  main loaded
  = Run (out ++ [Printed suggested_header])%list
        (Raise (KeyError ("url" :: filter (λ c, c ∉ columns loaded)
                                          ["domainLength"]))).
Proof.
  intros Hclean Hfeature Hsummary Hrating Hurl.
  rewrite (main_run _ _ _ _ Hclean Hfeature Hsummary).
  destruct (engineered_frame _ _ _ Hclean Hfeature) as (Hcols & -> & ->).
  rewrite engineered_suggested by done. cbn [printed returned map].
  assert (Hin : ∀ c, c ∈ (required ++ required_numeric)%list →
                     c ∈ columns loaded) by (by apply Forall_forall).
  rewrite bind_Ok.
  rewrite (select_columns_Raise _ _ "url"
             (filter (λ c, c ∉ columns loaded) ["domainLength"])); [ done | ].
  cbn [columns]. unfold shown_columns. rewrite !filter_cons, !filter_nil.
  rewrite decide_True by (by rewrite derived_columns_source by set_solver).
  rewrite (decide_False (P := "price" ∉ _)).
  2: { intros Hn. apply Hn, elem_of_derived_columns. left.
       apply Hin. unfold required. set_solver. }
  rewrite (decide_False (P := "ahrefsDomainRating" ∉ _)).
  2: { intros Hn. apply Hn, elem_of_derived_columns. by left. }
  rewrite (decide_False (P := "domainAge" ∉ _)).
  2: { intros Hn. apply Hn, elem_of_derived_columns. right. unfold derived.
       right. left. split; [ done | ]. apply Hin. unfold required. set_solver. }
  f_equal. destruct (decide ("domainLength" ∈ columns loaded)) as [ Hl | Hl ].
  - rewrite decide_False.
    + by rewrite decide_False by tauto.
    + intros Hn. apply Hn, elem_of_derived_columns. by left.
  - rewrite decide_True.
    + by rewrite decide_True.
    + rewrite elem_of_derived_columns. unfold derived.
      intros [ ? | [ [_ ?] | [ [? _] | [ [? _] | [? _] ] ] ] ]; done.
Qed.

(** X14.  When the loaded frame lacks one of the columns [price],
    [startPrice], [registeredDate] and [bidCount], [main] raises a KeyError
    that names columns the frame lacks, and prints nothing: neither the
    summary nor the suggestions are reached. *)
Theorem main_missing_required loaded :
  ¬ Forall (λ c, c ∈ columns loaded)
           ["price"; "startPrice"; "registeredDate"; "bidCount"] →
  ∃ c missing,
    main loaded = Run [] (Raise (KeyError (c :: missing))) ∧
    Forall (λ c, c ∈ ["price"; "startPrice"; "registeredDate"; "bidCount"] ∧
                 c ∉ columns loaded) (c :: missing).
Proof.
  intros Hmiss. unfold main.
  destruct (filter (λ c, c ∉ columns loaded) required) as [ | c missing ] eqn:Hf.
  - apply filter_absent_nil in Hf.
    assert (Hbid : "bidCount" ∉ columns loaded).
    { intros Hbid. apply Hmiss. revert Hf. unfold required.
      rewrite !Forall_cons. tauto. }
    exists "bidCount", []. split.
    + rewrite clean_data_eq, (dropna_Ok required loaded Hf), bind_Ok.
      rewrite (dropna_Raise required_numeric _ "bidCount" []); [ done | ].
      rewrite !coerce_columns_spec. cbn [columns].
      unfold required_numeric. rewrite !filter_cons, filter_nil.
      rewrite decide_False; [ by rewrite decide_True | ].
      intros Hn. apply Hn. rewrite Forall_forall in Hf. apply Hf.
      unfold required. set_solver.
    + constructor; [ split; [ set_solver | done ] | constructor ].
  - exists c, missing. split.
    + rewrite clean_data_eq, (dropna_Raise required loaded c missing Hf). done.
    + apply Forall_forall. intros c' Hc'. rewrite <- Hf in Hc'.
      apply list_elem_of_filter in Hc' as [? Hc']. split; [ | done ].
      revert Hc'. unfold required. set_solver.
Qed.

End MainFacts.

(** ** [suggest_domains] on frame objects *)

Section ObjectProgram.

Context `{Sorter}.

(** X15.  The call of [suggest_domains] on a reference to a frame object
    computes what [suggest_domains] computes on the frame the object holds:
    it prints the same lines after those already printed, and it raises the
    same exception or returns a reference to an object that did not exist
    before the call and holds the same frame. *)
Theorem suggest_domains_refines w df p q T :
  Store.heap w !! df = Some T →
  ∃ res w', Store.suggest_domains df p q w = Some (res, w') ∧
    Store.stdout w'
    = (Store.stdout w ++ printed (suggest_domains T p q))%list ∧
    match returned (suggest_domains T p q) with
    | Ok R => ∃ l, res = Ok l ∧ Store.heap w !! l = None ∧
                   Store.heap w' !! l = Some R
    | Raise e => res = Raise e
    end.
Proof.
  intros Hdf.
  destruct (StoreFacts.suggest_domains_object w df p q T Hdf)
    as (res & w' & Hrun & Hout & Hres & _).
  exists res, w'. split; [ done | ]. split; [ done | ].
  destruct (returned (suggest_domains T p q)) as [ R | e ]; [ | done ].
  destruct Hres as (l & -> & Hfresh & Hl). exists l.
  split; [ done | ]. split; [ by apply lookup_ge_None | done ].
Qed.

End ObjectProgram.

(** ** The further properties on concrete frames *)

Lemma clean_data_kept_rows_witness :
  length (rows Examples.unparsed_cleaned)
  = length (filter (λ r : row,
                      complete ["price"; "startPrice"; "registeredDate"] r &&
                      notna (to_numeric Reference.numeric (cell r "price")) &&
                      notna (to_numeric Reference.numeric (cell r "bidCount")))
                   (rows Examples.unparsed)).
Proof.
  apply (clean_data_kept_rows
           Reference.datetime Reference.numeric Reference.instant
           Examples.unparsed Examples.unparsed_cleaned).
  vm_compute. reflexivity.
Defined.

Lemma clean_data_coerced_columns_witness :
  let r := Examples.listing (Str "ab.com") (Num 100) NaN (Num 30)
             (Date (Timestamp 2015 1 1 0)) (Num 2) in
  ("startPrice" ∈ numeric_cols → num_or_na (cell r "startPrice")) ∧
  ("startPrice" ∈ date_cols → date_or_na (cell r "startPrice")).
Proof.
  intros r.
  apply (clean_data_coerced_columns
           Reference.datetime Reference.numeric Reference.instant
           Examples.unparsed Examples.unparsed_cleaned r "startPrice").
  - vm_compute. reflexivity.
  - apply list_elem_of_here.
  - apply (bool_decide_unpack _). vm_compute. exact I.
Defined.

Lemma clean_data_settles_witness :
  clean_data Reference.datetime Reference.numeric Reference.instant
             (DataFrame Examples.listing_columns [])
  = Ok (DataFrame Examples.listing_columns []).
Proof.
  apply (clean_data_settles
           Reference.datetime Reference.numeric Reference.instant
           Examples.unparsed Examples.unparsed_cleaned
           (DataFrame Examples.listing_columns []));
    vm_compute; reflexivity.
Defined.

Lemma feature_engineering_attribute_error_witness :
  feature_engineering 2025 Examples.unparsed = Raise AttributeError.
Proof.
  apply (feature_engineering_attribute_error 2025 Examples.unparsed
           (Examples.listing (Str "ab.com") (Num 100) (Str "$80") (Num 30)
                             (Str "2015-01-01") (Num 2))).
  - apply (bool_decide_unpack _). vm_compute. exact I.
  - apply list_elem_of_here.
  - left. exists "2015-01-01". vm_compute. reflexivity.
Defined.

Lemma feature_engineering_type_error_witness :
  feature_engineering 2025
    (DataFrame ["price"; "startPrice"]
       [ {[ "price" := Num 100; "startPrice" := Str "$80" ]} ])
  = Raise TypeError.
Proof.
  apply (feature_engineering_type_error 2025
           (DataFrame ["price"; "startPrice"]
              [ {[ "price" := Num 100; "startPrice" := Str "$80" ]} ])
           {[ "price" := Num 100; "startPrice" := Str "$80" ]}).
  - intros Hreg. exfalso. revert Hreg.
    apply (bool_decide_unpack _). vm_compute. exact I.
  - apply (bool_decide_unpack _). vm_compute. exact I.
  - apply (bool_decide_unpack _). vm_compute. exact I.
  - apply list_elem_of_here.
  - right. exists "$80". vm_compute. reflexivity.
  - vm_compute. exact I.
  - vm_compute. exact I.
Defined.

Lemma feature_engineering_idempotent_witness :
  feature_engineering 2025 (Examples.scenario_engineered 2025)
  = Ok (Examples.scenario_engineered 2025).
Proof.
  apply (feature_engineering_idempotent 2025 Examples.scenario_cleaned).
  - apply (bool_decide_unpack _). vm_compute. exact I.
  - vm_compute. reflexivity.
Defined.


Lemma suggest_domains_type_error_witness :
  returned (suggest_domains (H := stable_sorter)
              (DataFrame ["price"; "ahrefsDomainRating"]
                 [ {[ "price" := Str "$100"; "ahrefsDomainRating" := Num 30 ]} ])
              500 20)
  = Raise TypeError.
Proof.
  destruct (suggest_domains_type_error (H := stable_sorter)
              (DataFrame ["price"; "ahrefsDomainRating"]
                 [ {[ "price" := Str "$100"; "ahrefsDomainRating" := Num 30 ]} ])
              500 20)
    as (_ & Hraise & _).
  - apply (bool_decide_unpack _). vm_compute. exact I.
  - apply (bool_decide_unpack _). vm_compute. exact I.
  - apply (Hraise {[ "price" := Str "$100"; "ahrefsDomainRating" := Num 30 ]}
             "price").
    + apply list_elem_of_here.
    + apply list_elem_of_here.
    + left. exists "$100". vm_compute. reflexivity.
Defined.

Lemma suggest_domains_monotone_witness :
  [Examples.rowA] ⊆+ [Examples.rowB; Examples.rowA].
Proof.
  apply (suggest_domains_monotone (H := stable_sorter)
           Examples.scenario_cleaned 500 20 1000 20
           (DataFrame Examples.listing_columns [Examples.rowA])
           (DataFrame Examples.listing_columns [Examples.rowB; Examples.rowA])).
  - vm_compute. discriminate.
  - vm_compute. discriminate.
  - apply (bool_decide_unpack _). vm_compute. exact I.
  - apply (bool_decide_unpack _). vm_compute. exact I.
  - vm_compute. reflexivity.
  - vm_compute. reflexivity.
Defined.

Lemma suggest_domains_refines_witness :
  ∃ res w',
    Store.suggest_domains (H := stable_sorter) 0%nat 500 20
      (Store.World [Examples.ties] []) = Some (res, w') ∧
    Store.stdout w'
    = ([] ++ printed (suggest_domains (H := stable_sorter)
                        Examples.ties 500 20))%list ∧
    match returned (suggest_domains (H := stable_sorter) Examples.ties 500 20)
    with
    | Ok R => ∃ l, res = Ok l ∧
                   Store.heap (Store.World [Examples.ties] []) !! l = None ∧
                   Store.heap w' !! l = Some R
    | Raise e => res = Raise e
    end.
Proof.
  apply (suggest_domains_refines (H := stable_sorter)
           (Store.World [Examples.ties] []) 0%nat 500 20 Examples.ties).
  reflexivity.
Defined.

Lemma main_shows_suggestions_witness :
  ∃ T,
    main (H := stable_sorter)
         Reference.datetime Reference.numeric Reference.instant 2025
         (λ _, Run [Printed "===== BASIC INFO ====="] (Ok ()))
         (Examples.scenario Examples.rowC)
    = Run [Printed "===== BASIC INFO ====="; Printed suggested_header; Shown T]
          (Ok ()) ∧
    columns T = shown_columns ∧
    length (rows T) = 1%nat.
Proof.
  destruct (main_shows_suggestions (H := stable_sorter)
              Reference.datetime Reference.numeric Reference.instant 2025
              (λ _, Run [Printed "===== BASIC INFO ====="] (Ok ()))
              (Examples.scenario Examples.rowC) Examples.scenario_cleaned
              (Examples.scenario_engineered 2025)
              [Printed "===== BASIC INFO ====="])
    as (T & Hrun & Hcols & Hlen & _).
  - vm_compute. reflexivity.
  - vm_compute. reflexivity.
  - reflexivity.
  - apply (bool_decide_unpack _). vm_compute. exact I.
  - apply (bool_decide_unpack _). vm_compute. exact I.
  - exists T. split; [ exact Hrun | ]. split; [ exact Hcols | ].
    rewrite Hlen. vm_compute. reflexivity.
Defined.

Lemma main_without_rating_witness :
  let r : row :=
    {[ "price" := Num 100; "startPrice" := Num 80;
       "registeredDate" := Date (Timestamp 2015 1 1 0);
       "bidCount" := Num 2 ]} in
  let cols := ["price"; "startPrice"; "registeredDate"; "bidCount"] in
  main (H := stable_sorter)
       Reference.datetime Reference.numeric Reference.instant 2025
       (λ _, Run [] (Ok ())) (DataFrame cols [r])
  = Run [Printed "Column ahrefsDomainRating not found in DataFrame.";
         Printed suggested_header]
        (Raise (KeyError ["url"; "price"; "ahrefsDomainRating";
                          "domainLength"; "domainAge"])).
Proof.
  intros r cols.
  apply (main_without_rating (H := stable_sorter)
           Reference.datetime Reference.numeric Reference.instant 2025
           (λ _, Run [] (Ok ())) (DataFrame cols [r]) (DataFrame cols [r])
           (DataFrame (cols ++ ["domainAge"; "priceDiff"])
              [ <["priceDiff" := Num 20]> (<["domainAge" := Num 10]> r) ])
           []).
  - vm_compute. reflexivity.
  - vm_compute. reflexivity.
  - reflexivity.
  - apply (bool_decide_unpack _). vm_compute. exact I.
Defined.

Lemma main_without_url_witness :
  let r : row :=
    {[ "price" := Num 100; "startPrice" := Num 80;
       "ahrefsDomainRating" := Num 30;
       "registeredDate" := Date (Timestamp 2015 1 1 0);
       "bidCount" := Num 2 ]} in
  let cols := ["price"; "startPrice"; "ahrefsDomainRating"; "registeredDate";
               "bidCount"] in
  main (H := stable_sorter)
       Reference.datetime Reference.numeric Reference.instant 2025
       (λ _, Run [] (Ok ())) (DataFrame cols [r])
  = Run [Printed suggested_header]
        (Raise (KeyError ("url" :: filter (λ c, c ∉ cols) ["domainLength"]))).
Proof.
  intros r cols.
  apply (main_without_url (H := stable_sorter)
           Reference.datetime Reference.numeric Reference.instant 2025
           (λ _, Run [] (Ok ())) (DataFrame cols [r]) (DataFrame cols [r])
           (DataFrame (cols ++ ["domainAge"; "priceDiff"])
              [ <["priceDiff" := Num 20]> (<["domainAge" := Num 10]> r) ])
           []).
  - vm_compute. reflexivity.
  - vm_compute. reflexivity.
  - reflexivity.
  - apply (bool_decide_unpack _). vm_compute. exact I.
  - apply (bool_decide_unpack _). vm_compute. exact I.
Defined.

Lemma main_missing_required_witness :
  ∃ c missing,
    main (H := stable_sorter)
         Reference.datetime Reference.numeric Reference.instant 2025
         (λ _, Run [] (Ok ())) Examples.uncoerced
    = Run [] (Raise (KeyError (c :: missing))) ∧
    Forall (λ c, c ∈ ["price"; "startPrice"; "registeredDate"; "bidCount"] ∧
                 c ∉ columns Examples.uncoerced) (c :: missing).
Proof.
  apply (main_missing_required (H := stable_sorter)
           Reference.datetime Reference.numeric Reference.instant 2025
           (λ _, Run [] (Ok ())) Examples.uncoerced).
  apply (bool_decide_unpack _). vm_compute. exact I.
Defined.
